(** * Book catalog service: the REST handlers of [src/cmd/main.py] and
    [src/cmd/test.py] over a document collection.

    The two source files are the two deployment variants of the service:
    - variant A ([main.py]): records are addressed by an externally chosen
      string stored in the field [ID];
    - variant B ([test.py]): records are addressed by the store-generated
      [_id] (a bson [ObjectId]).

    Documents are Python dicts with string keys; they are modelled as
    [gmap string Value].  A collection is the list of its documents in
    natural (insertion) order.  A handler is a function from the collection
    and the request to the HTTP outcome and the collection afterwards.

    A store call fails here in one way only: the driver raises
    [OverflowError] when a document or a query that it has to encode holds
    an integer outside the signed 64-bit range.  A network or server
    failure is not modelled, so an [except Exception] branch is reached
    only by that error or by an exception that the handler's own code
    raises. *)

From Stdlib Require Import ZArith String Ascii List.
From stdpp Require Import gmap strings list sorting pretty.

Local Open Scope string_scope.
Local Open Scope list_scope.
Local Open Scope Z_scope.

(** ** Values and documents *)

(** The scalar values a field holds: the source stores titles, authors and
    editions as strings and page counts and years as strings (variant A) or
    integers (variant B).  [VInt n] is a Python integer, of any size: a
    JSON payload may carry an integer that the store cannot hold, and
    [Bson.encodable] below says which ones it can.  Other JSON values (null,
    booleans, floats, arrays, objects) are not modelled as field values. *)
Inductive Value : Type :=
  | VStr (s : string)
  | VInt (n : Z).

#[global] Instance Value_eq_dec : EqDecision Value.
Proof. solve_decision. Defined.

#[global] Instance Value_countable : Countable Value.
Proof.
  refine (inj_countable'
            (λ v, match v with VStr s => inl s | VInt n => inr n end)
            (λ x, match x with inl s => VStr s | inr n => VInt n end) _).
  by intros [].
Defined.

Abbreviation doc := (gmap string Value).

(** ** The Python operations the handlers rely on *)

Module Py.

(** [d.get(key, default)] *)
Definition get (d : doc) (key : string) (dflt : Value) : Value :=
  default dflt (d !! key).

(** Truth value of a scalar: the empty string and zero are falsy. *)
Definition truthy (v : Value) : bool :=
  match v with
  | VStr s => negb (String.eqb s "")
  | VInt n => negb (n =? 0)
  end.

(** [str(v)] *)
Definition str (v : Value) : string :=
  match v with
  | VStr s => s
  | VInt n => pretty n
  end.

(** [x < y]: defined between two strings (code point order, which on
    UTF-8 encoded text is the byte order) and between two integers; a
    string against an integer raises [TypeError], rendered [None]. *)
Definition lt (x y : Value) : option bool :=
  match x, y with
  | VStr a, VStr b => Some (String.ltb a b)
  | VInt a, VInt b => Some (a <? b)
  | _, _ => None
  end.

(** The order that [sorted] produces: ascending within one type. *)
Definition le (x y : Value) : Prop :=
  match x, y with
  | VStr a, VStr b => String.leb a b = true
  | VInt a, VInt b => a ≤ b
  | _, _ => False
  end.

(** Insertion of [x] into an ascending list, by [<] alone. *)
Fixpoint insert_sorted (x : Value) (l : list Value) : option (list Value) :=
  match l with
  | [] => Some [x]
  | y :: l' =>
      b ← lt x y;
      if (b : bool) then Some (x :: y :: l')
      else (y ::.) <$> insert_sorted x l'
  end.

(** [sorted(iterable)]: [None] stands for the [TypeError] that comparing
    a string with an integer raises.  The result of a successful sort
    does not depend on the sorting algorithm. *)
Fixpoint sorted (l : list Value) : option (list Value) :=
  match l with
  | [] => Some []
  | x :: l' => sorted l' ≫= insert_sorted x
  end.

(** All values of one type: the inputs on which [sorted] raises nothing. *)
Definition all_str (l : list Value) : Prop := Forall (λ v, ∃ s, v = VStr s) l.
Definition all_int (l : list Value) : Prop := Forall (λ v, ∃ n, v = VInt n) l.

End Py.

(** ** The pymongo collection operations *)

Record UpdateResult := { matched_count : nat; modified_count : nat }.
Record DeleteResult := { deleted_count : nat }.

Section Collection.
Context {D : Type} `{!EqDecision D}.
(** [P] is the query filter, [f] the update applied to a matching
    document. *)
Context (P : D → Prop) `{!∀ d, Decision (P d)} (f : D → D).

(** [collection.find_one(filter)]: the first matching document. *)
Fixpoint find_one (coll : list D) : option D :=
  match coll with
  | [] => None
  | d :: rest => if decide (P d) then Some d else find_one rest
  end.

(** [collection.update_many(filter, update)]: every matching document is
    updated. *)
Definition update_many (coll : list D) : UpdateResult * list D :=
  ({| matched_count := length (filter P coll);
      modified_count := length (filter (λ d, P d ∧ f d ≠ d) coll) |},
   (λ d, if decide (P d) then f d else d) <$> coll).

(** [collection.update_one(filter, update)]: only the first matching
    document is updated; [modified_count] is 0 when the update leaves it
    as it was. *)
Fixpoint update_one (coll : list D) : UpdateResult * list D :=
  match coll with
  | [] => ({| matched_count := 0; modified_count := 0 |}, [])
  | d :: rest =>
      if decide (P d)
      then ({| matched_count := 1;
               modified_count := if decide (f d = d) then 0 else 1 |},
            f d :: rest)
      else let '(r, rest') := update_one rest in (r, d :: rest')
  end%nat.

(** [collection.delete_one(filter)]: the first matching document is
    removed. *)
Fixpoint delete_one (coll : list D) : DeleteResult * list D :=
  match coll with
  | [] => ({| deleted_count := 0 |}, [])
  | d :: rest =>
      if decide (P d) then ({| deleted_count := 1 |}, rest)
      else let '(r, rest') := delete_one rest in (r, d :: rest')
  end%nat.

End Collection.

(** [collection.insert_one(document)]: appended in natural order. *)
Definition insert_one {D : Type} (d : D) (coll : list D) : list D := coll ++ [d].

(** A query document [{k1: v1, ...}] matches a document that holds every
    listed field with the listed value. *)
Definition matches (query d : doc) : Prop :=
  map_Forall (λ k v, d !! k = Some v) query.

#[global] Instance matches_dec query d : Decision (matches query d).
Proof. unfold matches. apply _. Defined.

(** [{"$set": fields}] *)
Definition set_fields (fields d : doc) : doc := fields ∪ d.

(** ** The driver's encoder *)

(** Before a call reaches the store, the driver encodes the documents it
    sends (a query, a document to insert, the fields of a [$set]) as BSON.
    A string is always encoded; an integer is encoded when it fits a signed
    64-bit integer, and the encoder raises [OverflowError] on any other. *)
Module Bson.

Definition int64 (n : Z) : bool := (- 2 ^ 63 <=? n) && (n <? 2 ^ 63).

Definition encodable (v : Value) : bool :=
  match v with
  | VStr _ => true
  | VInt n => int64 n
  end.

(** A document that the encoder accepts, and so one that a collection can
    hold. *)
Definition storable (d : doc) : Prop :=
  map_Forall (λ _ v, encodable v = true) d.

#[global] Instance storable_dec d : Decision (storable d).
Proof. unfold storable. apply _. Defined.

End Bson.

(** The collection operations as the handlers call them, through the
    driver, on a document [sent] that is built from the payload.  [None]
    is the [OverflowError] of the encoder; nothing has reached the store
    then. *)
Section Driver.
Context {D : Type} `{!EqDecision D}.
Context (P : D → Prop) `{!∀ d, Decision (P d)} (f : D → D).

(** [collection.find_one(sent)], where [P] is the filter that [sent]
    denotes.  Every document of a collection has itself passed the
    encoder, so a query whose every field a stored document repeats holds
    encodable values only: the error arises only where no document
    matches, and the search is written first.  On a collection of storable
    documents this is the driver's order, encoding and then searching
    (lemma [encoded_find_one_storable]). *)
Definition encoded_find_one (sent : doc) (coll : list D) : option (option D) :=
  match find_one P coll with
  | Some d => Some (Some d)
  | None => if decide (Bson.storable sent) then Some None else None
  end.

(** [collection.insert_one(sent)], stored as [d]. *)
Definition encoded_insert_one (sent : doc) (d : D) (coll : list D)
    : option (list D) :=
  if decide (Bson.storable sent) then Some (insert_one d coll) else None.

(** [collection.update_many(filter, {"$set": sent})] and
    [collection.update_one(filter, {"$set": sent})], for a filter that is
    always encoded (it holds strings and identifiers only). *)
Definition encoded_update_many (sent : doc) (coll : list D)
    : option (UpdateResult * list D) :=
  if decide (Bson.storable sent) then Some (update_many P f coll) else None.

Definition encoded_update_one (sent : doc) (coll : list D)
    : option (UpdateResult * list D) :=
  if decide (Bson.storable sent) then Some (update_one P f coll) else None.

End Driver.

(** ** HTTP outcomes *)

(** What a request ends in: a response built by [make_response], an
    [abort(status, description)], or an exception that no handler catches
    (which Flask turns into a 500). *)
Inductive outcome : Type :=
  | Response (status : Z) (body : doc)
  | Abort (status : Z) (description : string)
  | Raised (exn : string) (arg : string).

Definition status_of (o : outcome) : Z :=
  match o with
  | Response s _ => s
  | Abort s _ => s
  | Raised _ _ => 500
  end.

(** The [OverflowError] of the driver's encoder. *)
Definition overflow_error : outcome :=
  Raised "OverflowError" "MongoDB can only handle up to 8-byte ints".

(** What [request.get_json()] hands to a handler.  The handlers below are
    written for a body that is a JSON object; [Null] is the body [null],
    on which the handlers are given apart.  A body that is a string, a
    number, a boolean or an array is not modelled. *)
Inductive json : Type :=
  | Null
  | Object (data : doc).

(** [data[key]] followed by the rest of the handler: a missing key raises
    [KeyError] and the collection stays as it is. *)
Definition subscript {S : Type} (data : doc) (key : string)
    (rest : Value → outcome * S) (coll : S) : outcome * S :=
  match data !! key with
  | Some v => rest v
  | None => (Raised "KeyError" key, coll)
  end.

(** The first field of [fields] that [data] lacks
    ([for field in fields: if field not in data]). *)
Fixpoint first_missing (fields : list string) (data : doc) : option string :=
  match fields with
  | [] => None
  | field :: rest =>
      if decide (data !! field = None) then Some field
      else first_missing rest data
  end.

(** The loop [for key, value in mapping.items(): if key in data and
    <guard on key>: update_fields[value] = data[key]]. *)
Fixpoint collect_fields (mapping : list (string * string)) (guard : string → bool)
    (data : doc) (update_fields : doc) : doc :=
  match mapping with
  | [] => update_fields
  | (key, value) :: rest =>
      match data !! key with
      | Some v =>
          if guard key
          then collect_fields rest guard data (<[value := v]> update_fields)
          else collect_fields rest guard data update_fields
      | None => collect_fields rest guard data update_fields
      end
  end.

(** ** Variant A: [main.py], records addressed by the field [ID] *)

Module VariantA.

(** [start_data] *)
Definition start_data : list doc :=
  [ {[ "ID" := VStr "example1"; "BookName" := VStr "The Vortex";
       "BookAuthor" := VStr "José Eustasio Rivera";
       "BookEdition" := VStr "958-30-0804-4";
       "BookPages" := VStr "292"; "BookYear" := VStr "1924" ]};
    {[ "ID" := VStr "example2"; "BookName" := VStr "Frankenstein";
       "BookAuthor" := VStr "Mary Shelley";
       "BookEdition" := VStr "978-3-649-64609-9";
       "BookPages" := VStr "280"; "BookYear" := VStr "1818" ]};
    {[ "ID" := VStr "example3"; "BookName" := VStr "The Black Cat";
       "BookAuthor" := VStr "Edgar Allan Poe";
       "BookEdition" := VStr "978-3-99168-238-7";
       "BookPages" := VStr "280"; "BookYear" := VStr "1843" ]} ].

(** The external shape of one stored document. *)
Definition reshape (book : doc) : doc :=
  {[ "id" := VStr (Py.str (Py.get book "ID" (VStr "")));
     "title" := Py.get book "BookName" (VStr "");
     "author" := Py.get book "BookAuthor" (VStr "");
     "edition" := Py.get book "BookEdition" (VStr "");
     "pages" := Py.get book "BookPages" (VStr "");
     "year" := Py.get book "BookYear" (VStr "") ]}.

(** [find_all_books()], which [GET /api/books] returns as JSON. *)
Definition find_all_books (collection : list doc) : list doc :=
  reshape <$> collection.

(** The value set of one field over the collection, falsy values left
    out: [{book.get(field) for book in all_books if book.get(field)}]. *)
Definition field_set (field : string) (collection : list doc) : gset Value :=
  list_to_set
    (omap (λ book : doc,
             v ← book !! field; if Py.truthy v then Some v else None)
          collection).

(** [authors()] and [years()]: the list handed to the template. *)
Definition authors (collection : list doc) : option (list Value) :=
  Py.sorted (elements (field_set "BookAuthor" collection)).

Definition years (collection : list doc) : option (list Value) :=
  Py.sorted (elements (field_set "BookYear" collection)).

Definition required_fields : list string := ["id"; "title"; "author"].

(** The document that [create_book] looks for and inserts, and (with the
    path identifier as [ID]) the one [update_book] looks for. *)
Definition book_of (id title author : Value) (data : doc) : doc :=
  {[ "ID" := id; "BookName" := title; "BookAuthor" := author;
     "BookEdition" := Py.get data "edition" (VStr "");
     "BookPages" := Py.get data "pages" (VStr "");
     "BookYear" := Py.get data "year" (VStr "") ]}.

(** [POST /api/books] with a body [data] that is a JSON object.  The
    [OverflowError] of [find_one] or [insert_one] is not caught. *)
Definition create_book (collection : list doc) (data : doc)
    : outcome * list doc :=
  match first_missing required_fields data with
  | Some field =>
      (Response 400 {[ "error" := VStr ("Missing field: " +:+ field) ]},
       collection)
  | None =>
      subscript data "id" (λ id,
      subscript data "title" (λ title,
      subscript data "author" (λ author,
        let book := book_of id title author data in
        match encoded_find_one (matches book) book collection with
        | None => (overflow_error, collection)
        | Some (Some _) =>
            (Response 409
               {[ "error" := VStr "Book with characteristics already exists." ]},
             collection)
        | Some None =>
            match encoded_insert_one book book collection with
            | None => (overflow_error, collection)
            | Some collection' =>
                (Response 201 {[ "message" := VStr "Book created successfully." ]},
                 collection')
            end
        end) collection) collection) collection
  end.

(** [POST /api/books] with any modelled body: on [null] the membership
    test [field not in data] of the first required field raises
    [TypeError]. *)
Definition create_book_of_body (collection : list doc) (body : json)
    : outcome * list doc :=
  match body with
  | Null => (Raised "TypeError" "argument of type 'NoneType' is not iterable",
             collection)
  | Object data => create_book collection data
  end.

Definition allowed_fields : list (string * string) :=
  [ ("id", "ID"); ("title", "BookName"); ("author", "BookAuthor");
    ("edition", "BookEdition"); ("pages", "BookPages"); ("year", "BookYear") ].

(** The guard [key != 'id'] of the update loop. *)
Definition not_id (key : string) : bool := negb (String.eqb key "id").

(** The [update_fields] dict that the loop of [update_book] builds. *)
Definition update_fields_of (data : doc) : doc :=
  collect_fields allowed_fields not_id data ∅.

(** [PUT /api/books/<book_id>] with a body [data] that is a JSON object.
    The [OverflowError] of [find_one] or [update_many] is not caught. *)
Definition update_book (collection : list doc) (book_id : string) (data : doc)
    : outcome * list doc :=
  if decide (data = ∅) then (Abort 400 "Invalid JSON body.", collection)
  else
    let update_fields := update_fields_of data in
    if decide (update_fields = ∅)
    then (Abort 400 "No valid fields to update", collection)
    else
      subscript data "title" (λ title,
      subscript data "author" (λ author,
        let book := book_of (VStr book_id) title author data in
        match encoded_find_one (matches book) book collection with
        | None => (overflow_error, collection)
        | Some (Some _) =>
            (Response 409
               {[ "error" := VStr "Book with characteristics already exists." ]},
             collection)
        | Some None =>
            match encoded_update_many (matches {[ "ID" := VStr book_id ]})
                    (set_fields update_fields) update_fields collection with
            | None => (overflow_error, collection)
            | Some (result, collection') =>
                if decide (matched_count result = 0%nat)
                then (Abort 404 "Book not found.", collection')
                else
                  (Response 200
                     {[ "message" := VStr "Book updated successfully." ]},
                   collection')
            end
        end) collection) collection.

(** [PUT /api/books/<book_id>] with any modelled body: [null] is falsy. *)
Definition update_book_of_body (collection : list doc) (book_id : string)
    (body : json) : outcome * list doc :=
  match body with
  | Null => (Abort 400 "Invalid JSON body.", collection)
  | Object data => update_book collection book_id data
  end.

(** [DELETE /api/books/<book_id>] *)
Definition delete_book (collection : list doc) (book_id : string)
    : outcome * list doc :=
  let '(result, collection') :=
    delete_one (matches {[ "ID" := VStr book_id ]}) collection in
  if decide (deleted_count result = 0%nat)
  then (Response 404 {[ "error" := VStr "Book not found" ]}, collection)
  else
    (Response 200
       {[ "message" :=
            VStr ("Deleted " +:+ pretty (deleted_count result)
                  +:+ " book(s) with ID '" +:+ book_id +:+ "'") ]},
     collection').

(** The loop of [prepare_data] over [books].  The first component is
    [Some key] when [book[key]] raises [KeyError], [None] when the loop runs
    to its end.  The source runs the loop on [start_data], whose values are
    strings: the encoder accepts every document the loop sends. *)
Fixpoint prepare_data_loop (books : list doc) (collection : list doc)
    : option string * list doc :=
  match books with
  | [] => (None, collection)
  | book :: rest =>
      match book !! "ID" with
      | None => (Some "ID", collection)
      | Some id =>
          match find_one (matches {[ "ID" := id ]}) collection with
          | Some _ => prepare_data_loop rest collection
          | None => prepare_data_loop rest (insert_one book collection)
          end
      end
  end.

(** [prepare_data()] *)
Definition prepare_data (collection : list doc) : option string * list doc :=
  prepare_data_loop start_data collection.

(** [GET /api/books] *)
Definition api_books (collection : list doc) : list doc :=
  find_all_books collection.

End VariantA.

(** ** The bson [ObjectId] of variant B *)

Module ObjectId.

(** ASCII whitespace, which [bytes.fromhex] skips between bytes. *)
Definition is_space (c : ascii) : bool :=
  let n := nat_of_ascii c in
  ((n =? 32) || ((9 <=? n) && (n <=? 13)))%nat.

(** A hexadecimal digit, in the lower case that [str(ObjectId)] prints. *)
Definition hex_digit (c : ascii) : option ascii :=
  let n := nat_of_ascii c in
  if ((48 <=? n) && (n <=? 57))%nat then Some c
  else if ((97 <=? n) && (n <=? 102))%nat then Some c
  else if ((65 <=? n) && (n <=? 70))%nat then Some (ascii_of_nat (n + 32))
  else None.

(** [bytes.fromhex(s)], the bytes written back in hexadecimal: two digits
    per byte, whitespace allowed between bytes; [None] is [ValueError]. *)
Fixpoint fromhex (s : string) : option string :=
  match s with
  | EmptyString => Some EmptyString
  | String c s' =>
      if is_space c then fromhex s'
      else
        match s' with
        | EmptyString => None
        | String d s'' =>
            top ← hex_digit c;
            bot ← hex_digit d;
            rest ← fromhex s'';
            Some (String top (String bot rest))
        end
  end.

(** [ObjectId(s)] for a string [s]: 24 characters that [bytes.fromhex]
    accepts; [None] is [InvalidId].  An identifier is represented by
    [str(oid)], the hexadecimal form of its bytes. *)
Definition parse (s : string) : option string :=
  if decide (String.length s = 24%nat) then fromhex s else None.

End ObjectId.

(** ** Variant B: [test.py], records addressed by the generated [_id] *)

Module VariantB.

(** A stored document: the [_id] that the driver generated on insert and
    the other fields. *)
Record stored := { _id : string; fields : doc }.

#[global] Instance stored_eq_dec : EqDecision stored.
Proof. solve_decision. Defined.

(** The global [mongo_collection]: [None] until the main block has
    connected. *)
Abbreviation handle := (option (list stored)).

(** [find_all_books(coll)]: each document with its [_id] as a string. *)
Definition find_all_books (coll : list stored) : list doc :=
  (λ book, <[ "_id" := VStr (_id book) ]> (fields book)) <$> coll.

(** [coll.distinct(field)]: the distinct values of [field] over the
    documents that hold it. *)
Definition distinct (field : string) (coll : list stored) : gset Value :=
  list_to_set (omap (λ book, fields book !! field) coll).

(** [authors()] and [years()]: the outer [inl] is [abort(500)] on a
    missing collection, the inner [None] the [TypeError] of [sorted]. *)
Definition authors (mongo_collection : handle) : outcome + option (list Value) :=
  match mongo_collection with
  | None => inl (Abort 500 "Database not initialized.")
  | Some coll => inr (Py.sorted (elements (distinct "BookAuthor" coll)))
  end.

Definition years (mongo_collection : handle) : outcome + option (list Value) :=
  match mongo_collection with
  | None => inl (Abort 500 "Database not initialized.")
  | Some coll => inr (Py.sorted (elements (distinct "BookYear" coll)))
  end.

(** [GET /api/books] *)
Definition api_books_get (mongo_collection : handle) : outcome + list doc :=
  match mongo_collection with
  | None => inl (Abort 500 "Database not initialized.")
  | Some coll => inr (find_all_books coll)
  end.

Definition required_fields : list string :=
  ["BookName"; "BookAuthor"; "BookISBN"; "BookPages"; "BookYear"].

(** [try: body except Exception as e: return make_response(error, 500)].
    [abort] raises an [HTTPException], which is an [Exception]: the
    handler catches an abort of the body like any other exception.  What
    the body did to the collection before raising stays done. *)
Definition try_except {S : Type} (body : outcome * S) (error : string)
    : outcome * S :=
  match body.1 with
  | Response _ _ => body
  | Abort _ _ | Raised _ _ => (Response 500 {[ "error" := VStr error ]}, body.2)
  end.

(** [POST /api/books] with a body [data] that is a JSON object.  [new_id]
    is the [_id] that the driver generates for the inserted document.  The
    [find_one] on [BookISBN] stands before the [try]: its [OverflowError]
    is not caught, the one of [insert_one] is. *)
Definition create_book (mongo_collection : handle) (data : doc) (new_id : string)
    : outcome * handle :=
  match mongo_collection with
  | None => (Abort 500 "Database not initialized.", None)
  | Some coll =>
      if decide (data = ∅) then (Abort 400 "Invalid JSON body.", Some coll)
      else
        match first_missing required_fields data with
        | Some field =>
            (Response 400
               {[ "error" := VStr ("Missing required field: '" +:+ field +:+ "'") ]},
             Some coll)
        | None =>
            subscript data "BookISBN" (λ isbn,
              match encoded_find_one
                      (λ book, fields book !! "BookISBN" = Some isbn)
                      {[ "BookISBN" := isbn ]} coll with
              | None => (overflow_error, Some coll)
              | Some (Some _) =>
                  (Response 409
                     {[ "error" := VStr "Book with this ISBN already exists." ]},
                   Some coll)
              | Some None =>
                  subscript data "BookName" (λ name,
                  subscript data "BookAuthor" (λ author,
                  subscript data "BookISBN" (λ isbn',
                  subscript data "BookPages" (λ pages,
                  subscript data "BookYear" (λ year,
                    let book_document : doc :=
                      {[ "BookName" := name; "BookAuthor" := author;
                         "BookISBN" := isbn'; "BookPages" := pages;
                         "BookYear" := year ]} in
                    try_except
                      (match encoded_insert_one book_document
                               {| _id := new_id; fields := book_document |}
                               coll with
                       | None => (overflow_error, Some coll)
                       | Some coll' =>
                           (Response 201
                              {[ "message" := VStr "Book created successfully.";
                                 "id" := VStr new_id ]},
                            Some coll')
                       end)
                      "Failed to create book due to a database error.")
                  (Some coll)) (Some coll)) (Some coll)) (Some coll)) (Some coll)
              end) (Some coll)
        end
  end.

(** [POST /api/books] with any modelled body: [null] is falsy. *)
Definition create_book_of_body (mongo_collection : handle) (body : json)
    (new_id : string) : outcome * handle :=
  match body with
  | Null =>
      match mongo_collection with
      | None => (Abort 500 "Database not initialized.", None)
      | Some coll => (Abort 400 "Invalid JSON body.", Some coll)
      end
  | Object data => create_book mongo_collection data new_id
  end.

Definition field_mapping : list (string * string) :=
  [ ("BookName", "BookName"); ("BookAuthor", "BookAuthor");
    ("BookISBN", "BookISBN"); ("BookPages", "BookPages");
    ("BookYear", "BookYear") ].

Definition update_fields_of (data : doc) : doc :=
  collect_fields field_mapping (λ _, true) data ∅.

(** [{"$set": update_fields}] on a stored document. *)
Definition set_stored (update_fields : doc) (book : stored) : stored :=
  {| _id := _id book; fields := set_fields update_fields (fields book) |}.

(** [PUT /api/books/<book_id>] with a body [data] that is a JSON object.
    The [OverflowError] of [update_one] is raised inside the [try], like
    the [abort(404)]. *)
Definition update_book (mongo_collection : handle) (book_id : string) (data : doc)
    : outcome * handle :=
  match mongo_collection with
  | None => (Abort 500 "Database not initialized.", None)
  | Some coll =>
      if decide (data = ∅) then (Abort 400 "Invalid JSON body.", Some coll)
      else
        match ObjectId.parse book_id with
        | None => (Abort 400 "Invalid Book ID format.", Some coll)
        | Some object_book_id =>
            let update_fields := update_fields_of data in
            if decide (update_fields = ∅)
            then (Abort 400 "No valid fields to update provided.", Some coll)
            else
              try_except
                (match encoded_update_one (λ book, _id book = object_book_id)
                         (set_stored update_fields) update_fields coll with
                 | None => (overflow_error, Some coll)
                 | Some (result, coll') =>
                     if decide (matched_count result = 0%nat)
                     then (Abort 404 "Book not found.", Some coll')
                     else if decide (modified_count result = 0%nat
                                     ∧ matched_count result = 1%nat)
                     then
                       (Response 200
                          {[ "message" :=
                               VStr "Book found, but no changes were applied (data was identical).";
                             "id" := VStr book_id ]},
                        Some coll')
                     else
                       (Response 200
                          {[ "message" := VStr "Book updated successfully.";
                             "id" := VStr book_id ]},
                        Some coll')
                 end)
                "Failed to update book due to a database error."
        end
  end.

(** [PUT /api/books/<book_id>] with any modelled body: [null] is falsy. *)
Definition update_book_of_body (mongo_collection : handle) (book_id : string)
    (body : json) : outcome * handle :=
  match body with
  | Null =>
      match mongo_collection with
      | None => (Abort 500 "Database not initialized.", None)
      | Some coll => (Abort 400 "Invalid JSON body.", Some coll)
      end
  | Object data => update_book mongo_collection book_id data
  end.

(** [DELETE /api/books/<book_id>] *)
Definition delete_book (mongo_collection : handle) (book_id : string)
    : outcome * handle :=
  match mongo_collection with
  | None => (Abort 500 "Database not initialized.", None)
  | Some coll =>
      match ObjectId.parse book_id with
      | None => (Abort 400 "Invalid Book ID format.", Some coll)
      | Some object_book_id =>
          try_except
            (let '(result, coll') :=
               delete_one (λ book, _id book = object_book_id) coll in
             if decide (deleted_count result = 0%nat)
             then (Response 404 {[ "error" := VStr "Book not found" ]}, Some coll)
             else
               (Response 200
                  {[ "message" :=
                       VStr ("Deleted " +:+ pretty (deleted_count result)
                             +:+ " book(s) with ID '" +:+ book_id +:+ "'") ]},
                Some coll'))
            "Failed to delete book due to a database error."
      end
  end.

(** [start_data] of [prepare_data], and the collection that
    [prepare_data] leaves when it starts from an empty one and the driver
    generates the three identifiers below. *)
Definition start_data : list doc :=
  [ {[ "BookName" := VStr "The Vortex";
       "BookAuthor" := VStr "José Eustasio Rivera";
       "BookISBN" := VStr "958-30-0804-4";
       "BookPages" := VInt 292; "BookYear" := VInt 1924 ]};
    {[ "BookName" := VStr "Frankenstein";
       "BookAuthor" := VStr "Mary Shelley";
       "BookISBN" := VStr "978-3-649-64609-9";
       "BookPages" := VInt 280; "BookYear" := VInt 1818 ]};
    {[ "BookName" := VStr "The Black Cat";
       "BookAuthor" := VStr "Edgar Allan Poe";
       "BookISBN" := VStr "978-3-99168-238-7";
       "BookPages" := VInt 280; "BookYear" := VInt 1843 ]} ].

Definition seeded : list stored :=
  zip_with (λ oid book, {| _id := oid; fields := book |})
    [ "65f0c0ffee65f0c0ffee0001"; "65f0c0ffee65f0c0ffee0002";
      "65f0c0ffee65f0c0ffee0003" ]
    start_data.

(** The unique key of a stored document. *)
Definition isbn_of (book : stored) : option Value := fields book !! "BookISBN".

(** The loop of [prepare_data(coll)] over [books].  [gen n] is the
    identifier that the driver generates for the [n]-th document this run
    inserts.  The first component is [Some key] when the run stops on the
    [KeyError] of [book[key]] (for [BookName], read by the messages, after
    the document has been inserted), [None] when the loop runs to its
    end.  The source runs the loop on [start_data], whose values are
    strings and four-digit integers: the encoder accepts every document the
    loop sends. *)
Fixpoint prepare_data_loop (books : list doc) (gen : nat → string) (n : nat)
    (coll : list stored) : option string * list stored :=
  match books with
  | [] => (None, coll)
  | book :: rest =>
      match book !! "BookISBN" with
      | None => (Some "BookISBN", coll)
      | Some isbn =>
          match find_one (λ b, fields b !! "BookISBN" = Some isbn) coll with
          | Some _ =>
              match book !! "BookName" with
              | Some _ => prepare_data_loop rest gen n coll
              | None => (Some "BookName", coll)
              end
          | None =>
              let coll' := insert_one {| _id := gen n; fields := book |} coll in
              match book !! "BookName" with
              | Some _ => prepare_data_loop rest gen (S n) coll'
              | None => (Some "BookName", coll')
              end
          end
      end
  end.

(** [prepare_data(coll)] *)
Definition prepare_data (gen : nat → string) (coll : list stored)
    : option string * list stored :=
  prepare_data_loop start_data gen 0 coll.

End VariantB.

(** ** Properties that the statements below are phrased with *)


(** The six fields by which variant A recognises a duplicate. *)
Definition identity (d : doc)
    : option Value * option Value * option Value
      * option Value * option Value * option Value :=
  (d !! "ID", d !! "BookName", d !! "BookAuthor",
   d !! "BookEdition", d !! "BookPages", d !! "BookYear").

(** How [reshape] renders one internal field: the stored value, or the
    empty string when the document lacks the field. *)
Definition renders (book out : doc) (internal external : string) : Prop :=
  match book !! internal with
  | Some v => out !! external = Some v
  | None => out !! external = Some (VStr "")
  end.

Definition rendered (book out : doc) : Prop :=
  match book !! "ID" with
  | Some v => out !! "id" = Some (VStr (Py.str v))
  | None => out !! "id" = Some (VStr "")
  end
  ∧ renders book out "BookName" "title"
  ∧ renders book out "BookAuthor" "author"
  ∧ renders book out "BookEdition" "edition"
  ∧ renders book out "BookPages" "pages"
  ∧ renders book out "BookYear" "year"
  ∧ dom out = ({[ "id"; "title"; "author"; "edition"; "pages"; "year" ]} : gset string).

(** The values of [X] are all strings or all integers. *)
Definition one_type (X : gset Value) : Prop :=
  (∀ v, v ∈ X → ∃ s, v = VStr s) ∨ (∀ v, v ∈ X → ∃ n, v = VInt n).

(** A seed document on which the loop of variant B's [prepare_data] raises
    nothing: it holds the two fields that the loop reads. *)
Definition seed_ready (book : doc) : Prop :=
  is_Some (book !! "BookISBN") ∧ is_Some (book !! "BookName").

(** What the loop of [collect_fields] leaves under the internal name [k]. *)
Fixpoint collected (mapping : list (string * string)) (guard : string → bool)
    (data : doc) (k : string) : option Value :=
  match mapping with
  | [] => None
  | (key, value) :: rest =>
      match collected rest guard data k with
      | Some v => Some v
      | None =>
          if decide (value = k)
          then (if guard key then data !! key else None)
          else None
      end
  end.

(** ** Sample requests used in the examples *)

Module Samples.

(** A complete create payload of variant B and the document stored for
    it under a generated identifier. *)
Definition dracula : doc :=
  {[ "BookName" := VStr "Dracula"; "BookAuthor" := VStr "Bram Stoker";
     "BookISBN" := VStr "978-0-14-143984-6";
     "BookPages" := VInt 418; "BookYear" := VInt 1897 ]}.

Definition dracula_stored : VariantB.stored :=
  {| VariantB._id := "65f0c0ffee65f0c0ffee0004"; VariantB.fields := dracula |}.

(** An update payload of variant A that repeats all stored values of
    [example1]. *)
Definition vortex_again : doc :=
  {[ "title" := VStr "The Vortex"; "author" := VStr "José Eustasio Rivera";
     "edition" := VStr "958-30-0804-4"; "pages" := VStr "292";
     "year" := VStr "1924" ]}.

End Samples.

(** * Lemmas *)

(** Closed decidable facts are settled by evaluation. *)
Ltac by_computation := apply (bool_decide_unpack _); vm_compute; exact I.

(** ** Collections *)

Section CollectionFacts.
Context {D : Type} `{!EqDecision D}.
Context (P : D → Prop) `{!∀ d, Decision (P d)} (f : D → D).

Lemma find_one_None coll :
  find_one P coll = None ↔ Forall (λ d, ¬ P d) coll.
Proof.
  induction coll as [|d rest IH]; simpl.
  - split; [constructor | done].
  - destruct (decide (P d)) as [Hd|Hd].
    + split; [done | intros Hall; inversion Hall; done].
    + rewrite IH. split; [by constructor | by inversion 1].
Qed.

Lemma find_one_Some coll d :
  find_one P coll = Some d → d ∈ coll ∧ P d.
Proof.
  induction coll as [|d' rest IH]; simpl; [done|].
  destruct (decide (P d')) as [Hd|Hd].
  - intros [= <-]. split; [left | done].
  - intros [??]%IH. split; [by right | done].
Qed.


(** A collection with a match splits at its first match. *)
Lemma first_match_split coll :
  (∃ d, d ∈ coll ∧ P d) →
  ∃ l1 d l2, coll = l1 ++ d :: l2 ∧ P d ∧ Forall (λ d', ¬ P d') l1.
Proof.
  induction coll as [|d' rest IH]; intros (d & Hin & HP).
  - by apply elem_of_nil in Hin.
  - destruct (decide (P d')) as [Hd|Hd].
    + exists [], d', rest. by repeat split.
    + apply elem_of_cons in Hin as [->|Hin]; [done|].
      destruct IH as (l1 & d0 & l2 & -> & ? & ?); [by eauto|].
      exists (d' :: l1), d0, l2. repeat split; [done|by constructor].
Qed.

Lemma update_many_matched_0 coll :
  matched_count (update_many P f coll).1 = 0%nat ↔ Forall (λ d, ¬ P d) coll.
Proof.
  simpl. rewrite length_zero_iff_nil. induction coll as [|d rest IH].
  - split; [constructor | done].
  - rewrite filter_cons. destruct (decide (P d)) as [Hd|Hd].
    + split; [done | intros Hall; inversion Hall; done].
    + rewrite IH. split; [by constructor | by inversion 1].
Qed.

Lemma update_many_none coll :
  Forall (λ d, ¬ P d) coll → (update_many P f coll).2 = coll.
Proof.
  unfold update_many. cbn [snd].
  induction 1 as [|d rest Hd _ IH]; csimpl; [done|].
  rewrite decide_False by done. by f_equal.
Qed.

Lemma update_one_none coll :
  Forall (λ d, ¬ P d) coll →
  update_one P f coll = ({| matched_count := 0; modified_count := 0 |}, coll).
Proof.
  induction 1 as [|d rest Hd _ IH]; simpl; [done|].
  rewrite decide_False by done. by rewrite IH.
Qed.

Lemma update_one_first l1 d l2 :
  Forall (λ d', ¬ P d') l1 → P d →
  update_one P f (l1 ++ d :: l2)
  = ({| matched_count := 1;
        modified_count := if decide (f d = d) then 0 else 1 |},
     l1 ++ f d :: l2).
Proof.
  intros Hl1 Hd. induction Hl1 as [|d' rest Hd' _ IH]; simpl.
  - by rewrite decide_True.
  - rewrite decide_False by done. by rewrite IH.
Qed.

Lemma delete_one_none coll :
  Forall (λ d, ¬ P d) coll →
  delete_one P coll = ({| deleted_count := 0 |}, coll).
Proof.
  induction 1 as [|d rest Hd _ IH]; simpl; [done|].
  rewrite decide_False by done. by rewrite IH.
Qed.

Lemma delete_one_first l1 d l2 :
  Forall (λ d', ¬ P d') l1 → P d →
  delete_one P (l1 ++ d :: l2) = ({| deleted_count := 1 |}, l1 ++ l2).
Proof.
  intros Hl1 Hd. induction Hl1 as [|d' rest Hd' _ IH]; simpl.
  - by rewrite decide_True.
  - rewrite decide_False by done. by rewrite IH.
Qed.


End CollectionFacts.

(** ** The driver's encoder *)

Section DriverFacts.
Context {D : Type} `{!EqDecision D}.
Context (P : D → Prop) `{!∀ d, Decision (P d)} (f : D → D).


Lemma encoded_find_one_miss sent coll :
  Forall (λ d, ¬ P d) coll → Bson.storable sent →
  encoded_find_one P sent coll = Some None.
Proof.
  intros Hnone Hsent. unfold encoded_find_one.
  rewrite (proj2 (find_one_None P coll) Hnone). by rewrite decide_True.
Qed.

Lemma encoded_find_one_overflow sent coll :
  Forall (λ d, ¬ P d) coll → ¬ Bson.storable sent →
  encoded_find_one P sent coll = None.
Proof.
  intros Hnone Hsent. unfold encoded_find_one.
  rewrite (proj2 (find_one_None P coll) Hnone). by rewrite decide_False.
Qed.

(** What [encoded_find_one] answers, by cases. *)
Lemma encoded_find_one_cases sent coll :
  (∃ d, d ∈ coll ∧ P d ∧ encoded_find_one P sent coll = Some (Some d))
  ∨ (Forall (λ d, ¬ P d) coll ∧ Bson.storable sent
     ∧ encoded_find_one P sent coll = Some None)
  ∨ (Forall (λ d, ¬ P d) coll ∧ ¬ Bson.storable sent
     ∧ encoded_find_one P sent coll = None).
Proof.
  unfold encoded_find_one. destruct (find_one P coll) as [d|] eqn:Hfind.
  - left. apply find_one_Some in Hfind as [??]. by exists d.
  - apply find_one_None in Hfind. right.
    destruct (decide (Bson.storable sent)); [left | right]; done.
Qed.


End DriverFacts.

(** Case analysis on the [encoded_find_one] of the goal: a match, no
    match with a query that is encoded, no match with one that is not. *)
Ltac find_one_cases d Hin Hd Hnone Hsent :=
  match goal with
  | |- context [encoded_find_one ?P ?sent ?coll] =>
      destruct (encoded_find_one_cases P sent coll)
        as [(d & Hin & Hd & ->)|[(Hnone & Hsent & ->)|(Hnone & Hsent & ->)]]
  end.

(** ** Python's order and [sorted] *)

Lemma String_ltb_leb a b : String.ltb a b = true → String.leb a b = true.
Proof. unfold String.ltb, String.leb. by destruct (String.compare a b). Qed.

Lemma String_ltb_false_leb a b : String.ltb a b = false → String.leb b a = true.
Proof.
  unfold String.ltb, String.leb. rewrite (String.compare_antisym b a).
  by destruct (String.compare a b).
Qed.

Lemma lt_true_le x y : Py.lt x y = Some true → Py.le x y.
Proof.
  destruct x as [a|a], y as [b|b]; simpl; try done; intros [= Hab].
  - by apply String_ltb_leb.
  - apply Z.ltb_lt in Hab. lia.
Qed.

Lemma lt_false_le x y : Py.lt x y = Some false → Py.le y x.
Proof.
  destruct x as [a|a], y as [b|b]; simpl; try done; intros [= Hab].
  - by apply String_ltb_false_leb.
  - apply Z.ltb_ge in Hab. lia.
Qed.

Lemma insert_sorted_perm x l r : Py.insert_sorted x l = Some r → r ≡ₚ x :: l.
Proof.
  revert r. induction l as [|y l IH]; intros r; simpl.
  - by intros [= <-].
  - destruct (Py.lt x y) as [[]|]; simpl; try done.
    + by intros [= <-].
    + destruct (Py.insert_sorted x l) as [r'|]; simpl; [|done].
      intros [= <-]. rewrite (IH r' eq_refl). apply Permutation_swap.
Qed.

Lemma insert_sorted_HdRel x y l r :
  HdRel Py.le y l → Py.le y x → Py.insert_sorted x l = Some r → HdRel Py.le y r.
Proof.
  destruct l as [|z l]; simpl.
  - intros _ Hyx [= <-]. by constructor.
  - intros Hyz Hyx. apply HdRel_inv in Hyz.
    destruct (Py.lt x z) as [[]|]; simpl; try done.
    + intros [= <-]. by constructor.
    + destruct (Py.insert_sorted x l); simpl; [|done].
      intros [= <-]. by constructor.
Qed.

Lemma insert_sorted_Sorted x l r :
  Sorted Py.le l → Py.insert_sorted x l = Some r → Sorted Py.le r.
Proof.
  revert r. induction l as [|y l IH]; intros r Hl; simpl.
  - intros [= <-]. by repeat constructor.
  - apply Sorted_inv in Hl as [Hl Hy].
    destruct (Py.lt x y) as [[]|] eqn:Hxy; simpl; try done.
    + intros [= <-]. constructor; [by constructor|].
      constructor. by apply lt_true_le.
    + destruct (Py.insert_sorted x l) as [r'|] eqn:Hr'; simpl; [|done].
      intros [= <-]. constructor; [by apply IH|].
      eapply insert_sorted_HdRel; [done| |done]. by apply lt_false_le.
Qed.

Lemma sorted_perm l r : Py.sorted l = Some r → r ≡ₚ l.
Proof.
  revert r. induction l as [|x l IH]; intros r; simpl.
  - by intros [= <-].
  - destruct (Py.sorted l) as [r'|]; simpl; [|done].
    intros ->%insert_sorted_perm. by rewrite (IH r' eq_refl).
Qed.

Lemma sorted_Sorted l r : Py.sorted l = Some r → Sorted Py.le r.
Proof.
  revert r. induction l as [|x l IH]; intros r; simpl.
  - intros [= <-]. constructor.
  - destruct (Py.sorted l) as [r'|]; simpl; [|done].
    by apply insert_sorted_Sorted, IH.
Qed.

Lemma insert_sorted_all_str x l :
  Py.all_str (x :: l) → is_Some (Py.insert_sorted x l).
Proof.
  intros Hall. apply Forall_cons in Hall as [[a ->] Hl].
  induction Hl as [|y l [b ->] _ IH]; simpl; [by eauto|].
  destruct (String.ltb a b); simpl; [by eauto|].
  destruct IH as [r ->]. by eauto.
Qed.

Lemma insert_sorted_all_int x l :
  Py.all_int (x :: l) → is_Some (Py.insert_sorted x l).
Proof.
  intros Hall. apply Forall_cons in Hall as [[a ->] Hl].
  induction Hl as [|y l [b ->] _ IH]; simpl; [by eauto|].
  destruct (a <? b); simpl; [by eauto|].
  destruct IH as [r ->]. by eauto.
Qed.

(** On values of one type [sorted] raises nothing. *)
Lemma sorted_total l : Py.all_str l ∨ Py.all_int l → is_Some (Py.sorted l).
Proof.
  induction l as [|x l IH]; simpl; [by eauto|].
  intros [Hall|Hall].
  - destruct IH as [r Hr]; [left; by eapply Forall_inv_tail|].
    rewrite Hr. simpl. apply insert_sorted_all_str.
    apply sorted_perm in Hr. unfold Py.all_str. by rewrite Hr.
  - destruct IH as [r Hr]; [right; by eapply Forall_inv_tail|].
    rewrite Hr. simpl. apply insert_sorted_all_int.
    apply sorted_perm in Hr. unfold Py.all_int. by rewrite Hr.
Qed.

(** What a successful [sorted] over the elements of a set returns. *)
Lemma sorted_elements (X : gset Value) r :
  Py.sorted (elements X) = Some r →
  Sorted Py.le r ∧ NoDup r ∧ ∀ v, v ∈ r ↔ v ∈ X.
Proof.
  intros Hr. split; [by eapply sorted_Sorted|].
  apply sorted_perm in Hr. split.
  - rewrite Hr. apply NoDup_elements.
  - intros v. rewrite Hr. apply elem_of_elements.
Qed.

(** ** Queries *)

Lemma matches_ID v d : matches {[ "ID" := v ]} d ↔ d !! "ID" = Some v.
Proof. unfold matches. by rewrite map_Forall_singleton. Qed.

(** A query holds only values of the documents it matches. *)
Lemma matches_storable query d :
  matches query d → Bson.storable d → Bson.storable query.
Proof.
  intros Hmatch Hd k v Hk. exact (Hd k v (Hmatch k v Hk)).
Qed.

Lemma storable_singleton k v :
  Bson.storable {[ k := v ]} ↔ Bson.encodable v = true.
Proof. unfold Bson.storable. by rewrite map_Forall_singleton. Qed.

Lemma matches_book_of id title author data d :
  matches (VariantA.book_of id title author data) d
  ↔ identity d
    = (Some id, Some title, Some author,
       Some (Py.get data "edition" (VStr "")),
       Some (Py.get data "pages" (VStr "")),
       Some (Py.get data "year" (VStr ""))).
Proof.
  unfold matches, VariantA.book_of, identity.
  rewrite !map_Forall_insert by (by vm_compute).
  rewrite map_Forall_singleton. split.
  - intros (-> & -> & -> & -> & -> & ->). done.
  - intros [= -> -> -> -> -> ->]. done.
Qed.

(** ** The update loop *)

Lemma collect_fields_lookup mapping guard data acc k :
  collect_fields mapping guard data acc !! k
  = match collected mapping guard data k with
    | Some v => Some v
    | None => acc !! k
    end.
Proof.
  revert acc. induction mapping as [|[key value] rest IH]; intros acc; simpl; [done|].
  destruct (data !! key) as [v|] eqn:Hkey; destruct (guard key);
    rewrite IH; destruct (collected rest guard data k); try done;
    try (by destruct (decide (value = k))).
  rewrite lookup_insert. by destruct (decide (value = k)).
Qed.

Lemma collected_Some mapping guard data k v :
  collected mapping guard data k = Some v →
  ∃ ext, (ext, k) ∈ mapping ∧ guard ext = true ∧ data !! ext = Some v.
Proof.
  induction mapping as [|[key value] rest IH]; simpl; [done|].
  destruct (collected rest guard data k) as [v'|].
  - intros [= ->]. destruct IH as (ext & ? & ? & ?); [done|].
    exists ext. by rewrite elem_of_cons; auto.
  - destruct (decide (value = k)) as [->|]; [|done].
    destruct (guard key) eqn:Hg; [|done].
    intros Hv. exists key. by rewrite elem_of_cons; auto.
Qed.

Lemma collected_None mapping guard data k :
  (∀ ext, (ext, k) ∈ mapping → guard ext = true → data !! ext = None) →
  collected mapping guard data k = None.
Proof.
  induction mapping as [|[key value] rest IH]; simpl; [done|]. intros Hno.
  rewrite IH by (intros ext ?; apply Hno; by right).
  destruct (decide (value = k)) as [->|]; [|done].
  destruct (guard key) eqn:Hg; [|done]. apply Hno; [left | done].
Qed.

Lemma collected_elem_of mapping guard data ext int v :
  NoDup mapping.*2 → (ext, int) ∈ mapping → guard ext = true →
  data !! ext = Some v → collected mapping guard data int = Some v.
Proof.
  induction mapping as [|[key value] rest IH]; simpl.
  - intros _ Hin. by apply elem_of_nil in Hin.
  - intros [Hnotin Hnodup]%NoDup_cons [[= <- <-]|Hin]%elem_of_cons Hg Hv.
    + destruct (collected rest guard data int) as [v'|] eqn:Hrest.
      * apply collected_Some in Hrest as (ext' & Hin' & _).
        destruct Hnotin. apply list_elem_of_fmap. by exists (ext', int).
      * rewrite decide_True by done. by rewrite Hg.
    + by rewrite (IH Hnodup Hin Hg Hv).
Qed.


Lemma collect_fields_nonempty mapping guard data ext int :
  NoDup mapping.*2 → (ext, int) ∈ mapping → guard ext = true →
  is_Some (data !! ext) → collect_fields mapping guard data ∅ ≠ ∅.
Proof.
  intros Hnodup Hin Hg [v Hv] Hempty.
  assert (collect_fields mapping guard data ∅ !! int = Some v) as Hl.
  { rewrite collect_fields_lookup.
    by rewrite (collected_elem_of _ _ _ _ _ _ Hnodup Hin Hg Hv). }
  by rewrite Hempty in Hl.
Qed.

Lemma allowed_fields_NoDup : NoDup VariantA.allowed_fields.*2.
Proof. by apply (bool_decide_unpack _). Qed.

Lemma field_mapping_NoDup : NoDup VariantB.field_mapping.*2.
Proof. by apply (bool_decide_unpack _). Qed.

Lemma update_fields_of_ID data : VariantA.update_fields_of data !! "ID" = None.
Proof.
  unfold VariantA.update_fields_of. rewrite collect_fields_lookup.
  rewrite collected_None; [done|].
  intros ext Hin Hg. unfold VariantA.allowed_fields in Hin.
  repeat (apply elem_of_cons in Hin as [Heq|Hin];
          [simplify_eq; by vm_compute in Hg|]).
  by apply elem_of_nil in Hin.
Qed.

Lemma first_missing_Some fields data field :
  field ∈ fields → data !! field = None → is_Some (first_missing fields data).
Proof.
  induction fields as [|f rest IH]; simpl.
  - intros Hin. by apply elem_of_nil in Hin.
  - intros Hin Hnone. destruct (decide (data !! f = None)); [by eauto|].
    apply elem_of_cons in Hin as [->|Hin]; [done | by apply IH].
Qed.

Lemma first_missing_None fields data :
  first_missing fields data = None ↔ ∀ field, field ∈ fields → is_Some (data !! field).
Proof.
  induction fields as [|f rest IH]; simpl.
  - split; [|done]. intros _ field Hin. by apply elem_of_nil in Hin.
  - destruct (decide (data !! f = None)) as [Hf|Hf].
    + split; [done|]. intros Hall. destruct (Hall f) as [v Hv]; [left|congruence].
    + rewrite IH. split.
      * intros Hall field [->|Hin]%elem_of_cons; [|by auto].
        by apply not_eq_None_Some.
      * intros Hall field Hin. apply Hall. by right.
Qed.


(** ** What the update handlers send *)



(** * The claims *)

(** ** Listing *)

Lemma reshape_dom book :
  dom (VariantA.reshape book)
  = ({[ "id"; "title"; "author"; "edition"; "pages"; "year" ]} : gset string).
Proof.
  unfold VariantA.reshape. rewrite !dom_insert_L, dom_singleton_L. set_solver.
Qed.

Lemma reshape_rendered book : rendered book (VariantA.reshape book).
Proof.
  unfold rendered, renders.
  assert (VariantA.reshape book !! "id"
          = Some (VStr (Py.str (Py.get book "ID" (VStr ""))))) as -> by reflexivity.
  assert (VariantA.reshape book !! "title"
          = Some (Py.get book "BookName" (VStr ""))) as -> by reflexivity.
  assert (VariantA.reshape book !! "author"
          = Some (Py.get book "BookAuthor" (VStr ""))) as -> by reflexivity.
  assert (VariantA.reshape book !! "edition"
          = Some (Py.get book "BookEdition" (VStr ""))) as -> by reflexivity.
  assert (VariantA.reshape book !! "pages"
          = Some (Py.get book "BookPages" (VStr ""))) as -> by reflexivity.
  assert (VariantA.reshape book !! "year"
          = Some (Py.get book "BookYear" (VStr ""))) as -> by reflexivity.
  unfold Py.get.
  destruct (book !! "ID"), (book !! "BookName"), (book !! "BookAuthor"),
    (book !! "BookEdition"), (book !! "BookPages"), (book !! "BookYear");
    repeat split; try reflexivity; apply reshape_dom.
Qed.

(** C10. In variant A, listing is total over malformed stored documents:
    every stored document is returned, in order, in the external
    vocabulary, and each internal field that a document lacks is rendered
    as the empty string. *)
Theorem find_all_books_total (collection : list doc) :
  Forall2 rendered collection (VariantA.find_all_books collection).
Proof.
  unfold VariantA.find_all_books. apply Forall2_fmap_r, Forall_Forall2_diag.
  apply Forall_forall. intros book _. apply reshape_rendered.
Qed.

(** The seeded example of the specification, and a document that holds
    nothing but a title. *)
Example find_all_books_seed :
  VariantA.find_all_books (take 1 VariantA.start_data)
  = [ {[ "id" := VStr "example1"; "title" := VStr "The Vortex";
         "author" := VStr "José Eustasio Rivera";
         "edition" := VStr "958-30-0804-4";
         "pages" := VStr "292"; "year" := VStr "1924" ]} ].
Proof. reflexivity. Qed.

Example find_all_books_incomplete :
  VariantA.find_all_books [ {[ "BookName" := VStr "Untitled" ]} ]
  = [ {[ "id" := VStr ""; "title" := VStr "Untitled"; "author" := VStr "";
         "edition" := VStr ""; "pages" := VStr ""; "year" := VStr "" ]} ].
Proof. reflexivity. Qed.

(** ** Update never touches the identifier (variant A) *)

(** C9. In variant A, [update_book] leaves the [ID] field of every stored
    document as it was, whatever the payload holds, a payload with the key
    [id] included. *)
Theorem update_book_keeps_ID (collection : list doc) (book_id : string) (data : doc) :
  (λ d : doc, d !! "ID") <$> (VariantA.update_book collection book_id data).2
  = (λ d : doc, d !! "ID") <$> collection.
Proof.
  unfold VariantA.update_book, subscript.
  repeat case_decide; try done.
  destruct (data !! "title"); [|done]. destruct (data !! "author"); [|done].
  destruct (encoded_find_one _ _ _) as [[?|]|]; [done| |done].
  unfold encoded_update_many. case_decide; [|done].
  destruct (update_many _ _ _) as [result collection'] eqn:Hup.
  assert (collection' = (update_many (matches {[ "ID" := VStr book_id ]})
            (set_fields (VariantA.update_fields_of data)) collection).2) as ->
    by (by rewrite Hup).
  assert (∀ l : list doc,
    (λ d : doc, d !! "ID") <$> (update_many (matches {[ "ID" := VStr book_id ]})
        (set_fields (VariantA.update_fields_of data)) l).2
    = (λ d : doc, d !! "ID") <$> l) as Hframe.
  { intros l. unfold update_many. cbn [snd]. rewrite <- list_fmap_compose.
    apply list_fmap_ext. intros i d _. simpl. case_decide; [|done].
    unfold set_fields. apply lookup_union_r, update_fields_of_ID. }
  by case_decide; cbn [snd]; rewrite Hframe.
Qed.

Example update_book_keeps_ID_example :
  (λ d : doc, d !! "ID")
    <$> (VariantA.update_book (take 1 VariantA.start_data) "example1"
           {[ "id" := VStr "example9"; "title" := VStr "T";
              "author" := VStr "A" ]}).2
  = [ Some (VStr "example1") ].
Proof. reflexivity. Qed.

(** ** Create: validation *)

(** C5. A create payload that lacks a required field is rejected with
    status 400 and the store stays as it is, in variant A (required: [id],
    [title], [author]) and in variant B (required: [BookName],
    [BookAuthor], [BookISBN], [BookPages], [BookYear]). *)
Theorem create_book_missing_field :
  (∀ (collection : list doc) (data : doc) (field : string),
     field ∈ VariantA.required_fields → data !! field = None →
     ∃ body, VariantA.create_book collection data = (Response 400 body, collection))
  ∧ (∀ (coll : list VariantB.stored) (data : doc) (new_id field : string),
       field ∈ VariantB.required_fields → data !! field = None →
       ∃ o, VariantB.create_book (Some coll) data new_id = (o, Some coll)
            ∧ status_of o = 400).
Proof.
  split.
  - intros collection data field Hin Hnone. unfold VariantA.create_book.
    destruct (first_missing_Some _ _ _ Hin Hnone) as [f ->]. by eauto.
  - intros coll data new_id field Hin Hnone. unfold VariantB.create_book.
    case_decide; [by eauto|].
    destruct (first_missing_Some _ _ _ Hin Hnone) as [f ->]. by eauto.
Qed.

Lemma create_book_missing_field_witness :
  (∃ body, VariantA.create_book VariantA.start_data
             {[ "id" := VStr "example4"; "author" := VStr "Mary Shelley" ]}
           = (Response 400 body, VariantA.start_data))
  ∧ (∃ o, VariantB.create_book (Some [])
            {[ "BookName" := VStr "Frankenstein" ]} "65f0c0ffee65f0c0ffee0001"
          = (o, Some []) ∧ status_of o = 400).
Proof.
  split.
  - apply (proj1 create_book_missing_field VariantA.start_data _ "title").
    + unfold VariantA.required_fields. set_solver.
    + reflexivity.
  - apply (proj2 create_book_missing_field [] _ _ "BookISBN").
    + unfold VariantB.required_fields. set_solver.
    + reflexivity.
Defined.

(** ** Delete *)




(** ** Create: duplicates *)

(** C4, as the code has it.  A create payload that carries every required
    field and duplicates a stored document (in variant A on all six fields,
    the absent optional ones counting as empty strings; in variant B on
    [BookISBN] alone) is rejected with status 409 and the store stays as it
    is. *)
Theorem create_book_duplicate :
  (∀ (collection : list doc) (data : doc) (id title author : Value),
     data !! "id" = Some id → data !! "title" = Some title →
     data !! "author" = Some author →
     (∃ d : doc, d ∈ collection
        ∧ identity d
          = (Some id, Some title, Some author,
             Some (Py.get data "edition" (VStr "")),
             Some (Py.get data "pages" (VStr "")),
             Some (Py.get data "year" (VStr "")))) →
     VariantA.create_book collection data
     = (Response 409 {[ "error" := VStr "Book with characteristics already exists." ]},
        collection))
  ∧ (∀ (coll : list VariantB.stored) (data : doc) (new_id : string) (isbn : Value),
       (∀ field, field ∈ VariantB.required_fields → is_Some (data !! field)) →
       data !! "BookISBN" = Some isbn →
       (∃ b, b ∈ coll ∧ VariantB.isbn_of b = Some isbn) →
       VariantB.create_book (Some coll) data new_id
       = (Response 409 {[ "error" := VStr "Book with this ISBN already exists." ]},
          Some coll)).
Proof.
  split.
  - intros collection data id title author Hid Htitle Hauthor (d & Hin & Hd).
    unfold VariantA.create_book.
    assert (first_missing VariantA.required_fields data = None) as ->.
    { simpl. rewrite Hid, Htitle, Hauthor. by repeat case_decide. }
    unfold subscript. rewrite Hid, Htitle, Hauthor.
    destruct (encoded_find_one_cases
                (matches (VariantA.book_of id title author data))
                (VariantA.book_of id title author data) collection)
      as [(d' & _ & _ & ->)|[(Hnone & _)|(Hnone & _)]]; [done| |];
      rewrite Forall_forall in Hnone; destruct (Hnone d Hin);
      by apply matches_book_of.
  - intros coll data new_id isbn Hreq Hisbn (b & Hin & Hb).
    unfold VariantB.create_book.
    rewrite decide_False by (intros ->; by rewrite lookup_empty in Hisbn).
    apply first_missing_None in Hreq. rewrite Hreq.
    unfold subscript. rewrite Hisbn.
    destruct (encoded_find_one_cases
                (λ book, VariantB.fields book !! "BookISBN" = Some isbn)
                {[ "BookISBN" := isbn ]} coll)
      as [(d' & _ & _ & ->)|[(Hnone & _)|(Hnone & _)]]; [done| |];
      rewrite Forall_forall in Hnone; by destruct (Hnone b Hin).
Qed.

Lemma create_book_duplicate_witness :
  VariantA.create_book VariantA.start_data
    {[ "id" := VStr "example2"; "title" := VStr "Frankenstein";
       "author" := VStr "Mary Shelley"; "edition" := VStr "978-3-649-64609-9";
       "pages" := VStr "280"; "year" := VStr "1818" ]}
  = (Response 409 {[ "error" := VStr "Book with characteristics already exists." ]},
     VariantA.start_data)
  ∧ VariantB.create_book (Some VariantB.seeded)
      {[ "BookName" := VStr "Frankenstein, 2nd printing";
         "BookAuthor" := VStr "Mary Shelley";
         "BookISBN" := VStr "978-3-649-64609-9";
         "BookPages" := VInt 288; "BookYear" := VInt 1831 ]}
      "65f0c0ffee65f0c0ffee0004"
    = (Response 409 {[ "error" := VStr "Book with this ISBN already exists." ]},
       Some VariantB.seeded).
Proof.
  split.
  - apply (proj1 create_book_duplicate VariantA.start_data _
             (VStr "example2") (VStr "Frankenstein") (VStr "Mary Shelley"));
      [reflexivity..|].
    apply Exists_exists. by_computation.
  - apply (proj2 create_book_duplicate VariantB.seeded _ _
             (VStr "978-3-649-64609-9")).
    + apply Forall_forall. by_computation.
    + reflexivity.
    + apply Exists_exists. by_computation.
Defined.

(** C4 as stated fails in variant B: a payload whose unique key duplicates
    a stored document but that lacks another required field is answered
    with 400, not 409. *)
Lemma create_book_duplicate_key_incomplete :
  (∃ b, b ∈ VariantB.seeded
        ∧ VariantB.isbn_of b
          = ({[ "BookISBN" := VStr "958-30-0804-4" ]} : doc) !! "BookISBN")
  ∧ VariantB.create_book (Some VariantB.seeded)
      {[ "BookISBN" := VStr "958-30-0804-4" ]} "65f0c0ffee65f0c0ffee0004"
    = (Response 400 {[ "error" := VStr "Missing required field: 'BookName'" ]},
       Some VariantB.seeded)
  ∧ status_of (VariantB.create_book (Some VariantB.seeded)
                 {[ "BookISBN" := VStr "958-30-0804-4" ]}
                 "65f0c0ffee65f0c0ffee0004").1 ≠ 409.
Proof.
  split; [|split].
  - apply Exists_exists. by_computation.
  - reflexivity.
  - by vm_compute.
Qed.

Lemma identity_book_of id title author data :
  identity (VariantA.book_of id title author data)
  = (Some id, Some title, Some author,
     Some (Py.get data "edition" (VStr "")),
     Some (Py.get data "pages" (VStr "")),
     Some (Py.get data "year" (VStr ""))).
Proof. reflexivity. Qed.

(** C2, as the code has it.  Variant A rejects a create only when a stored
    document equals the payload on all six fields, so creates never store
    two documents equal on all six fields (two documents may share an
    [ID]).  Variant B rejects every create whose [BookISBN] a stored
    document already carries, so creates keep [BookISBN] unique, and with a
    freshly generated [_id] they keep [_id] unique. *)
Theorem create_book_uniqueness :
  (∀ (collection : list doc) (data : doc),
     NoDup (identity <$> collection) →
     NoDup (identity <$> (VariantA.create_book collection data).2))
  ∧ (∀ (collection : list doc) (data : doc),
       status_of (VariantA.create_book collection data).1 = 409 →
       ∃ id title author (d : doc),
         data !! "id" = Some id ∧ data !! "title" = Some title
         ∧ data !! "author" = Some author ∧ d ∈ collection
         ∧ identity d = identity (VariantA.book_of id title author data))
  ∧ (∀ (coll : list VariantB.stored) (data : doc) (new_id : string) (isbn : Value),
       data !! "BookISBN" = Some isbn →
       (∃ b, b ∈ coll ∧ VariantB.isbn_of b = Some isbn) →
       ∃ o, VariantB.create_book (Some coll) data new_id = (o, Some coll)
            ∧ (status_of o = 400 ∨ status_of o = 409))
  ∧ (∀ (coll coll' : list VariantB.stored) (data : doc) (new_id : string),
       (VariantB.create_book (Some coll) data new_id).2 = Some coll' →
       (NoDup (omap VariantB.isbn_of coll) → NoDup (omap VariantB.isbn_of coll'))
       ∧ (NoDup (VariantB._id <$> coll) → new_id ∉ VariantB._id <$> coll →
          NoDup (VariantB._id <$> coll'))).
Proof.
  split; [|split; [|split]].
  - intros collection data Hnodup. unfold VariantA.create_book, subscript.
    destruct (first_missing _ _); [done|].
    destruct (data !! "id") as [id|]; [|done].
    destruct (data !! "title") as [title|]; [|done].
    destruct (data !! "author") as [author|]; [|done].
    find_one_cases d0 Hin0 Hd0 Hfind Hsent; [done| |done].
    unfold encoded_insert_one. rewrite decide_True by done. cbn [snd].
    unfold insert_one. rewrite fmap_app, list_fmap_singleton. apply NoDup_app.
    split; [done|]. split; [|apply NoDup_singleton].
    intros t (d & Ht & Hin)%list_elem_of_fmap Ht'%list_elem_of_singleton.
    rewrite Forall_forall in Hfind.
    apply (Hfind d Hin). apply matches_book_of.
    rewrite <- identity_book_of. congruence.
  - intros collection data. unfold VariantA.create_book, subscript.
    destruct (first_missing _ _); [done|].
    destruct (data !! "id") as [id|]; [|done].
    destruct (data !! "title") as [title|]; [|done].
    destruct (data !! "author") as [author|]; [|done].
    find_one_cases d Hin Hd Hfind Hsent; [intros _| |done].
    2:{ unfold encoded_insert_one. by rewrite decide_True by done. }
    exists id, title, author, d. repeat split; try done.
    rewrite identity_book_of. by apply matches_book_of.
  - intros coll data new_id isbn Hisbn (b & Hin & Hb).
    unfold VariantB.create_book, subscript.
    rewrite decide_False by (intros ->; by rewrite lookup_empty in Hisbn).
    destruct (first_missing _ _); [by eauto|]. rewrite Hisbn.
    find_one_cases d0 Hin0 Hd0 Hfind Hsent; [by eauto| |];
      rewrite Forall_forall in Hfind; by destruct (Hfind b Hin).
  - intros coll coll' data new_id. unfold VariantB.create_book, subscript.
    case_decide; [by intros [= <-]|].
    destruct (first_missing _ _); [by intros [= <-]|].
    destruct (data !! "BookISBN") as [isbn|]; [|by intros [= <-]].
    find_one_cases d0 Hin0 Hd0 Hfind Hsent;
      [by intros [= <-]| |by intros [= <-]].
    destruct (data !! "BookName") as [name|]; [|by intros [= <-]].
    destruct (data !! "BookAuthor") as [author|]; [|by intros [= <-]].
    destruct (data !! "BookPages") as [pages|]; [|by intros [= <-]].
    destruct (data !! "BookYear") as [year|]; [|by intros [= <-]].
    unfold VariantB.try_except, encoded_insert_one, insert_one.
    case_decide; cbn [fst snd]; intros [= <-]; [|done].
    rewrite Forall_forall in Hfind. split.
    + intros Hnodup. rewrite omap_app. apply NoDup_app.
      split; [done|]. split; [|apply NoDup_singleton].
      intros v (b & Hin & Hb)%list_elem_of_omap Hv. simpl in Hv.
      apply list_elem_of_singleton in Hv. apply (Hfind b Hin).
      unfold VariantB.isbn_of in Hb. by rewrite Hb, Hv.
    + intros Hnodup Hfresh. rewrite fmap_app. apply NoDup_app.
      split; [done|]. split; [|apply NoDup_singleton].
      intros oid Hin ->%list_elem_of_singleton. done.
Qed.

Lemma create_book_uniqueness_witness :
  NoDup (identity <$> (VariantA.create_book VariantA.start_data
                         {[ "id" := VStr "example4"; "title" := VStr "Dracula";
                            "author" := VStr "Bram Stoker" ]}).2)
  ∧ (∃ id title author (d : doc),
       ({[ "id" := VStr "example1" ]} ∪ Samples.vortex_again) !! "id" = Some id
       ∧ ({[ "id" := VStr "example1" ]} ∪ Samples.vortex_again) !! "title"
         = Some title
       ∧ ({[ "id" := VStr "example1" ]} ∪ Samples.vortex_again) !! "author"
         = Some author
       ∧ d ∈ VariantA.start_data
       ∧ identity d
         = identity (VariantA.book_of id title author
                       ({[ "id" := VStr "example1" ]} ∪ Samples.vortex_again)))
  ∧ (∃ o, VariantB.create_book (Some VariantB.seeded)
            {[ "BookISBN" := VStr "958-30-0804-4" ]} "65f0c0ffee65f0c0ffee0004"
          = (o, Some VariantB.seeded)
          ∧ (status_of o = 400 ∨ status_of o = 409))
  ∧ NoDup (omap VariantB.isbn_of (VariantB.seeded ++ [Samples.dracula_stored]))
  ∧ NoDup (VariantB._id <$> VariantB.seeded ++ [Samples.dracula_stored]).
Proof.
  split; [|split; [|split; [|split]]].
  - apply (proj1 create_book_uniqueness VariantA.start_data). by_computation.
  - apply (proj1 (proj2 create_book_uniqueness) VariantA.start_data). reflexivity.
  - apply (proj1 (proj2 (proj2 create_book_uniqueness)) VariantB.seeded _ _
             (VStr "958-30-0804-4")); [reflexivity|].
    apply Exists_exists. by_computation.
  - refine (proj1 (proj2 (proj2 (proj2 create_book_uniqueness)) VariantB.seeded
                     (VariantB.seeded ++ [Samples.dracula_stored])
                     Samples.dracula "65f0c0ffee65f0c0ffee0004" _) _);
      [reflexivity | by_computation].
  - refine (proj2 (proj2 (proj2 (proj2 create_book_uniqueness)) VariantB.seeded
                     (VariantB.seeded ++ [Samples.dracula_stored])
                     Samples.dracula "65f0c0ffee65f0c0ffee0004" _) _ _);
      [reflexivity | by_computation | by_computation].
Defined.

(** C2 as stated fails in variant A: a create whose identifier already
    belongs to a stored document is accepted when another field differs,
    and two stored documents then share the identifier. *)
Lemma create_book_shared_ID :
  (∃ d : doc, d ∈ take 1 VariantA.start_data ∧ d !! "ID" = Some (VStr "example1"))
  ∧ VariantA.create_book (take 1 VariantA.start_data)
      {[ "id" := VStr "example1"; "title" := VStr "The Vortex (reprint)";
         "author" := VStr "José Eustasio Rivera" ]}
    = (Response 201 {[ "message" := VStr "Book created successfully." ]},
       take 1 VariantA.start_data
       ++ [ {[ "ID" := VStr "example1"; "BookName" := VStr "The Vortex (reprint)";
               "BookAuthor" := VStr "José Eustasio Rivera";
               "BookEdition" := VStr ""; "BookPages" := VStr "";
               "BookYear" := VStr "" ]} ])
  ∧ (λ d : doc, d !! "ID")
      <$> (VariantA.create_book (take 1 VariantA.start_data)
             {[ "id" := VStr "example1"; "title" := VStr "The Vortex (reprint)";
                "author" := VStr "José Eustasio Rivera" ]}).2
    = [ Some (VStr "example1"); Some (VStr "example1") ].
Proof.
  split; [|split].
  - apply Exists_exists. by_computation.
  - reflexivity.
  - by vm_compute.
Qed.

(** ** Update of an identifier that no stored document carries *)

(** In variant B every update that reaches the store with an identifier no
    stored document carries is answered with 500: the [abort(404)] is
    raised inside the [try] block and caught by its [except Exception]. *)
Lemma update_book_unknown_id_B (coll : list VariantB.stored)
    (book_id oid : string) (data : doc) :
  ObjectId.parse book_id = Some oid →
  VariantB.update_fields_of data ≠ ∅ →
  Forall (λ b, VariantB._id b ≠ oid) coll →
  VariantB.update_book (Some coll) book_id data
  = (Response 500
       {[ "error" := VStr "Failed to update book due to a database error." ]},
     Some coll).
Proof.
  intros Hparse Hfields Hnone. unfold VariantB.update_book.
  rewrite decide_False.
  2:{ intros ->. by apply Hfields. }
  rewrite Hparse. rewrite decide_False by done.
  unfold encoded_update_one. case_decide; [|done].
  by rewrite update_one_none.
Qed.

(** In variant A an update whose payload lacks [title] (or [author]) ends
    in a [KeyError] before the store is consulted. *)
Lemma update_book_partial_payload_A (collection : list doc)
    (book_id : string) (data : doc) :
  VariantA.update_fields_of data ≠ ∅ → data !! "title" = None →
  VariantA.update_book collection book_id data
  = (Raised "KeyError" "title", collection).
Proof.
  intros Hfields Htitle. unfold VariantA.update_book, subscript.
  rewrite decide_False.
  2:{ intros ->. by apply Hfields. }
  rewrite decide_False by done. by rewrite Htitle.
Qed.

(** C6: what the code does where the claim expects 404.  No stored
    document carries the identifier and the payload holds a mapped field,
    yet variant B answers 500 (the [abort(404)] is caught by the enclosing
    [except Exception]) and variant A raises [KeyError] on a payload
    without [title], which Flask answers with 500. *)
Theorem update_book_unknown_id_answers_500 :
  Forall (λ b, VariantB._id b ≠ "65f0c0ffee65f0c0ffee0009") VariantB.seeded
  ∧ VariantB.update_book (Some VariantB.seeded) "65f0c0ffee65f0c0ffee0009"
      {[ "BookName" := VStr "Dracula" ]}
    = (Response 500
         {[ "error" := VStr "Failed to update book due to a database error." ]},
       Some VariantB.seeded)
  ∧ Forall (λ b : doc, b !! "ID" ≠ Some (VStr "example9")) VariantA.start_data
  ∧ VariantA.update_book VariantA.start_data "example9" {[ "pages" := VStr "300" ]}
    = (Raised "KeyError" "title", VariantA.start_data)
  ∧ status_of (Raised "KeyError" "title") = 500.
Proof.
  split; [by_computation|]. split; [reflexivity|].
  split; [by_computation|]. split; reflexivity.
Qed.

(** ** Update: which fields change *)

Lemma not_id_true ext : VariantA.not_id ext = true ↔ ext ≠ "id".
Proof.
  unfold VariantA.not_id. rewrite negb_true_iff. apply String.eqb_neq.
Qed.





(** ** Update: the answer when nothing changes *)






(** ** Distinct authors and years *)

Lemma elem_of_field_set field (collection : list doc) v :
  v ∈ VariantA.field_set field collection
  ↔ Py.truthy v = true ∧ ∃ b : doc, b ∈ collection ∧ b !! field = Some v.
Proof.
  unfold VariantA.field_set. rewrite elem_of_list_to_set, list_elem_of_omap.
  split.
  - intros (b & Hin & Hb). destruct (b !! field) as [w|] eqn:Hw; [|done].
    simpl in Hb. destruct (Py.truthy w) eqn:Ht; [|done].
    injection Hb as <-. by eauto.
  - intros (Ht & b & Hin & Hb). exists b. split; [done|].
    rewrite Hb. simpl. by rewrite Ht.
Qed.

Lemma elem_of_distinct field (coll : list VariantB.stored) v :
  v ∈ VariantB.distinct field coll
  ↔ ∃ b, b ∈ coll ∧ VariantB.fields b !! field = Some v.
Proof.
  unfold VariantB.distinct. by rewrite elem_of_list_to_set, list_elem_of_omap.
Qed.

Lemma sorted_one_type (X : gset Value) :
  one_type X →
  ∃ r, Py.sorted (elements X) = Some r
       ∧ Sorted Py.le r ∧ NoDup r ∧ ∀ v, v ∈ r ↔ v ∈ X.
Proof.
  intros Htype.
  destruct (sorted_total (elements X)) as [r Hr].
  { destruct Htype as [Hs|Hi]; [left|right]; apply Forall_forall;
      intros v Hv%elem_of_elements; auto. }
  exists r. split; [done|]. by apply sorted_elements.
Qed.

(** C8, as the code has it.  Whenever the values concerned are all strings
    or all integers, the author list and the year list are returned in
    ascending order without duplicates.  In variant A they hold exactly the
    distinct truthy values (neither the empty string nor zero) of the
    field; in variant B exactly the distinct values of the field, the
    empty string included. *)
Theorem distinct_values_sorted :
  (∀ collection : list doc,
     one_type (VariantA.field_set "BookAuthor" collection) →
     ∃ r, VariantA.authors collection = Some r
          ∧ Sorted Py.le r ∧ NoDup r
          ∧ ∀ v, v ∈ r ↔ Py.truthy v = true
                         ∧ ∃ b : doc, b ∈ collection ∧ b !! "BookAuthor" = Some v)
  ∧ (∀ collection : list doc,
       one_type (VariantA.field_set "BookYear" collection) →
       ∃ r, VariantA.years collection = Some r
            ∧ Sorted Py.le r ∧ NoDup r
            ∧ ∀ v, v ∈ r ↔ Py.truthy v = true
                           ∧ ∃ b : doc, b ∈ collection ∧ b !! "BookYear" = Some v)
  ∧ (∀ coll : list VariantB.stored,
       one_type (VariantB.distinct "BookAuthor" coll) →
       ∃ r, VariantB.authors (Some coll) = inr (Some r)
            ∧ Sorted Py.le r ∧ NoDup r
            ∧ ∀ v, v ∈ r ↔ ∃ b, b ∈ coll
                                ∧ VariantB.fields b !! "BookAuthor" = Some v)
  ∧ (∀ coll : list VariantB.stored,
       one_type (VariantB.distinct "BookYear" coll) →
       ∃ r, VariantB.years (Some coll) = inr (Some r)
            ∧ Sorted Py.le r ∧ NoDup r
            ∧ ∀ v, v ∈ r ↔ ∃ b, b ∈ coll
                                ∧ VariantB.fields b !! "BookYear" = Some v).
Proof.
  split; [|split; [|split]].
  - intros collection (r & Hr & Hsorted & Hnodup & Hmem)%sorted_one_type.
    exists r. do 3 (split; [done|]).
    intros v. rewrite Hmem. apply elem_of_field_set.
  - intros collection (r & Hr & Hsorted & Hnodup & Hmem)%sorted_one_type.
    exists r. do 3 (split; [done|]).
    intros v. rewrite Hmem. apply elem_of_field_set.
  - intros coll (r & Hr & Hsorted & Hnodup & Hmem)%sorted_one_type.
    exists r. unfold VariantB.authors. rewrite Hr. do 3 (split; [done|]).
    intros v. rewrite Hmem. apply elem_of_distinct.
  - intros coll (r & Hr & Hsorted & Hnodup & Hmem)%sorted_one_type.
    exists r. unfold VariantB.years. rewrite Hr. do 3 (split; [done|]).
    intros v. rewrite Hmem. apply elem_of_distinct.
Qed.

Lemma one_type_elements (X : gset Value) :
  Py.all_str (elements X) ∨ Py.all_int (elements X) → one_type X.
Proof.
  intros [Hall|Hall]; [left|right]; intros v Hv%elem_of_elements;
    by apply (proj1 (Forall_forall _ _) Hall).
Qed.

Lemma distinct_values_sorted_witness :
  (∃ r, VariantA.authors VariantA.start_data = Some r
        ∧ Sorted Py.le r ∧ NoDup r
        ∧ ∀ v, v ∈ r ↔ Py.truthy v = true
                       ∧ ∃ b : doc, b ∈ VariantA.start_data
                                    ∧ b !! "BookAuthor" = Some v)
  ∧ (∃ r, VariantA.years VariantA.start_data = Some r
          ∧ Sorted Py.le r ∧ NoDup r
          ∧ ∀ v, v ∈ r ↔ Py.truthy v = true
                         ∧ ∃ b : doc, b ∈ VariantA.start_data
                                      ∧ b !! "BookYear" = Some v)
  ∧ (∃ r, VariantB.authors (Some VariantB.seeded) = inr (Some r)
          ∧ Sorted Py.le r ∧ NoDup r
          ∧ ∀ v, v ∈ r ↔ ∃ b, b ∈ VariantB.seeded
                              ∧ VariantB.fields b !! "BookAuthor" = Some v)
  ∧ (∃ r, VariantB.years (Some VariantB.seeded) = inr (Some r)
          ∧ Sorted Py.le r ∧ NoDup r
          ∧ ∀ v, v ∈ r ↔ ∃ b, b ∈ VariantB.seeded
                              ∧ VariantB.fields b !! "BookYear" = Some v).
Proof.
  split; [|split; [|split]].
  - apply (proj1 distinct_values_sorted VariantA.start_data).
    apply one_type_elements. left. vm_compute. repeat constructor; by eexists.
  - apply (proj1 (proj2 distinct_values_sorted) VariantA.start_data).
    apply one_type_elements. left. vm_compute. repeat constructor; by eexists.
  - apply (proj1 (proj2 (proj2 distinct_values_sorted)) VariantB.seeded).
    apply one_type_elements. left. vm_compute. repeat constructor; by eexists.
  - apply (proj2 (proj2 (proj2 distinct_values_sorted)) VariantB.seeded).
    apply one_type_elements. right. vm_compute. repeat constructor; by eexists.
Defined.

Example authors_seed :
  VariantA.authors VariantA.start_data
  = Some [ VStr "Edgar Allan Poe"; VStr "José Eustasio Rivera"; VStr "Mary Shelley" ].
Proof. reflexivity. Qed.

Example years_seed_B :
  VariantB.years (Some VariantB.seeded)
  = inr (Some [ VInt 1818; VInt 1843; VInt 1924 ]).
Proof. reflexivity. Qed.

(** A year stored as a string next to a year stored as a number: [sorted]
    raises [TypeError]. *)
Example years_mixed_types :
  VariantA.years [ {[ "BookYear" := VStr "1924" ]}; {[ "BookYear" := VInt 1843 ]} ]
  = None.
Proof. reflexivity. Qed.

(** C8 as stated fails in variant B: a document created with an empty
    author is stored, and the author list then holds the empty string. *)
Lemma authors_keeps_empty_string :
  VariantB.create_book (Some [])
    {[ "BookName" := VStr "Beowulf"; "BookAuthor" := VStr "";
       "BookISBN" := VStr "978-0-14-044931-0";
       "BookPages" := VInt 144; "BookYear" := VInt 1000 ]}
    "65f0c0ffee65f0c0ffee0001"
  = (Response 201 {[ "message" := VStr "Book created successfully.";
                     "id" := VStr "65f0c0ffee65f0c0ffee0001" ]},
     Some [ {| VariantB._id := "65f0c0ffee65f0c0ffee0001";
               VariantB.fields :=
                 {[ "BookName" := VStr "Beowulf"; "BookAuthor" := VStr "";
                    "BookISBN" := VStr "978-0-14-044931-0";
                    "BookPages" := VInt 144; "BookYear" := VInt 1000 ]} |} ])
  ∧ VariantB.authors
      (Some [ {| VariantB._id := "65f0c0ffee65f0c0ffee0001";
                 VariantB.fields :=
                   {[ "BookName" := VStr "Beowulf"; "BookAuthor" := VStr "";
                      "BookISBN" := VStr "978-0-14-044931-0";
                      "BookPages" := VInt 144; "BookYear" := VInt 1000 ]} |} ])
    = inr (Some [ VStr "" ])
  ∧ Py.truthy (VStr "") = false.
Proof. split; [|split]; reflexivity. Qed.

(** * Further properties of the handlers *)

(** ** Create: the accepted request *)








(** ** Update: the rejected requests *)

Lemma collect_fields_empty mapping guard data :
  NoDup mapping.*2 →
  collect_fields mapping guard data ∅ = ∅
  ↔ ∀ ext int, (ext, int) ∈ mapping → guard ext = true → data !! ext = None.
Proof.
  intros Hnodup. split.
  - intros Hempty ext int Hin Hg.
    destruct (data !! ext) as [v|] eqn:Hv; [|done].
    destruct (collect_fields_nonempty mapping guard data ext int); by eauto.
  - intros Hnone. apply map_eq. intros k.
    rewrite collect_fields_lookup, lookup_empty.
    rewrite collected_None; [done|]. intros ext Hin Hg. by eapply Hnone.
Qed.

Lemma update_fields_of_empty_A data :
  VariantA.update_fields_of data = ∅
  ↔ ∀ ext int, (ext, int) ∈ VariantA.allowed_fields → ext ≠ "id" →
               data !! ext = None.
Proof.
  unfold VariantA.update_fields_of.
  rewrite (collect_fields_empty _ _ _ allowed_fields_NoDup).
  split; intros Hnone ext int Hin Hg; eapply Hnone; try done;
    by apply not_id_true.
Qed.

Lemma update_fields_of_empty_B data :
  VariantB.update_fields_of data = ∅
  ↔ ∀ ext int, (ext, int) ∈ VariantB.field_mapping → data !! ext = None.
Proof.
  unfold VariantB.update_fields_of.
  rewrite (collect_fields_empty _ _ _ field_mapping_NoDup).
  split; intros Hnone ext int Hin; [by eapply Hnone | intros _; by eapply Hnone].
Qed.

(** Variant A: an update is answered with 400 exactly when the payload
    holds none of the allow-listed keys other than [id] (an empty payload
    included); the store then stays as it is. *)
Theorem update_book_A_validation :
  ∀ (collection : list doc) (book_id : string) (data : doc),
    (status_of (VariantA.update_book collection book_id data).1 = 400
     → ∀ ext int, (ext, int) ∈ VariantA.allowed_fields → ext ≠ "id" →
                  data !! ext = None)
    ∧ ((∀ ext int, (ext, int) ∈ VariantA.allowed_fields → ext ≠ "id" →
                   data !! ext = None)
       → VariantA.update_book collection book_id data
         = (Abort 400 (if decide (data = ∅) then "Invalid JSON body."
                       else "No valid fields to update"),
            collection)).
Proof.
  intros collection book_id data. unfold VariantA.update_book, subscript.
  destruct (decide (data = ∅)) as [->|Hdata].
  { split; [|done]. intros _ ext int _ _. apply lookup_empty. }
  destruct (decide (VariantA.update_fields_of data = ∅)) as [Hempty|Hfields].
  { split; [|done]. intros _. by apply update_fields_of_empty_A. }
  split; [|intros Hnone; by apply update_fields_of_empty_A in Hnone].
  destruct (data !! "title"); [|done]. destruct (data !! "author"); [|done].
  destruct (encoded_find_one _ _ _) as [[?|]|]; [done| |done].
  unfold encoded_update_many. case_decide; [|done].
  destruct (update_many _ _ _) as [result collection'].
  by case_decide.
Qed.

Lemma update_book_A_validation_witness :
  (∀ ext int, (ext, int) ∈ VariantA.allowed_fields → ext ≠ "id" →
              ({[ "id" := VStr "example9"; "shelf" := VStr "B4" ]} : doc) !! ext
              = None)
  ∧ VariantA.update_book VariantA.start_data "example1"
      {[ "id" := VStr "example9"; "shelf" := VStr "B4" ]}
    = (Abort 400
         (if decide (({[ "id" := VStr "example9"; "shelf" := VStr "B4" ]} : doc) = ∅)
          then "Invalid JSON body." else "No valid fields to update"),
       VariantA.start_data).
Proof.
  assert (VariantA.update_book VariantA.start_data "example1"
            {[ "id" := VStr "example9"; "shelf" := VStr "B4" ]}
          = (Abort 400 "No valid fields to update", VariantA.start_data))
    as Hrun by reflexivity.
  pose proof (proj1 (update_book_A_validation VariantA.start_data "example1"
                       {[ "id" := VStr "example9"; "shelf" := VStr "B4" ]}))
    as Hnone.
  rewrite Hrun in Hnone. specialize (Hnone eq_refl).
  split; [exact Hnone|].
  exact (proj2 (update_book_A_validation VariantA.start_data "example1"
                  {[ "id" := VStr "example9"; "shelf" := VStr "B4" ]}) Hnone).
Defined.

(** Variant B: an update is answered with 400 exactly when the payload
    holds no mapped key or the identifier is not a well-formed [ObjectId];
    the body is checked first, then the identifier, then the mapped keys,
    and the store stays as it is. *)
Theorem update_book_B_validation :
  ∀ (coll : list VariantB.stored) (book_id : string) (data : doc),
    (status_of (VariantB.update_book (Some coll) book_id data).1 = 400
     → (∀ ext int, (ext, int) ∈ VariantB.field_mapping → data !! ext = None)
       ∨ ObjectId.parse book_id = None)
    ∧ ((∀ ext int, (ext, int) ∈ VariantB.field_mapping → data !! ext = None)
       ∨ ObjectId.parse book_id = None
       → VariantB.update_book (Some coll) book_id data
         = (Abort 400
              (if decide (data = ∅) then "Invalid JSON body."
               else if decide (ObjectId.parse book_id = None)
                    then "Invalid Book ID format."
                    else "No valid fields to update provided."),
            Some coll)).
Proof.
  intros coll book_id data. unfold VariantB.update_book.
  destruct (decide (data = ∅)) as [->|Hdata].
  { split; [|done]. intros _. left. intros ext int _. apply lookup_empty. }
  destruct (ObjectId.parse book_id) as [oid|] eqn:Hparse.
  2:{ split; [by right | done]. }
  rewrite (decide_False (P := Some oid = None)) by done.
  destruct (decide (VariantB.update_fields_of data = ∅)) as [Hempty|Hfields].
  { split; [|done]. intros _. left. by apply update_fields_of_empty_B. }
  split.
  - unfold encoded_update_one. case_decide; [|done].
    destruct (update_one _ _ _) as [result coll'].
    unfold VariantB.try_except. by repeat case_decide.
  - intros [Hnone|?]; [|done]. by apply update_fields_of_empty_B in Hnone.
Qed.

Lemma update_book_B_validation_witness :
  ((∀ ext int, (ext, int) ∈ VariantB.field_mapping →
               ({[ "BookName" := VStr "Dracula" ]} : doc) !! ext = None)
   ∨ ObjectId.parse "example1" = None)
  ∧ VariantB.update_book (Some VariantB.seeded) "example1"
      {[ "BookName" := VStr "Dracula" ]}
    = (Abort 400
         (if decide (({[ "BookName" := VStr "Dracula" ]} : doc) = ∅)
          then "Invalid JSON body."
          else if decide (ObjectId.parse "example1" = None)
               then "Invalid Book ID format."
               else "No valid fields to update provided."),
       Some VariantB.seeded).
Proof.
  assert (VariantB.update_book (Some VariantB.seeded) "example1"
            {[ "BookName" := VStr "Dracula" ]}
          = (Abort 400 "Invalid Book ID format.", Some VariantB.seeded))
    as Hrun by reflexivity.
  pose proof (proj1 (update_book_B_validation VariantB.seeded "example1"
                       {[ "BookName" := VStr "Dracula" ]})) as Hwhy.
  rewrite Hrun in Hwhy. specialize (Hwhy eq_refl).
  split; [exact Hwhy|].
  exact (proj2 (update_book_B_validation VariantB.seeded "example1"
                  {[ "BookName" := VStr "Dracula" ]}) Hwhy).
Defined.

(** ** What a failed request leaves behind *)

Section UpdateOneFacts.
Context {D : Type} `{!EqDecision D}.
Context (P : D → Prop) `{!∀ d, Decision (P d)} (f : D → D).

Lemma update_one_cases coll :
  (Forall (λ d, ¬ P d) coll
   ∧ update_one P f coll = ({| matched_count := 0; modified_count := 0 |}, coll))
  ∨ (∃ l1 d l2,
       coll = l1 ++ d :: l2 ∧ P d ∧ Forall (λ d', ¬ P d') l1
       ∧ update_one P f coll
         = ({| matched_count := 1;
               modified_count := if decide (f d = d) then 0 else 1 |},
            l1 ++ f d :: l2)).
Proof.
  destruct (decide (Exists P coll)) as [Hex|Hno].
  - right. apply Exists_exists in Hex.
    destruct (first_match_split P coll Hex) as (l1 & d & l2 & -> & Hd & Hl1).
    exists l1, d, l2. by rewrite update_one_first.
  - left. apply not_Exists_Forall in Hno; [|apply _].
    split; [done|]. by apply update_one_none.
Qed.

Lemma update_one_length coll : length (update_one P f coll).2 = length coll.
Proof.
  destruct (update_one_cases coll) as [[_ ->]|(l1 & d & l2 & -> & _ & _ & ->)];
    [done|]. cbn [snd]. by rewrite !length_app.
Qed.


End UpdateOneFacts.

(** Variant A: a request that is not answered with its success status
    (201 for create, 200 for update and delete) leaves the store exactly as
    it was. *)
Theorem failed_request_keeps_store_A :
  ∀ (collection : list doc) (book_id : string) (data : doc),
    (status_of (VariantA.create_book collection data).1 ≠ 201 →
     (VariantA.create_book collection data).2 = collection)
    ∧ (status_of (VariantA.update_book collection book_id data).1 ≠ 200 →
       (VariantA.update_book collection book_id data).2 = collection)
    ∧ (status_of (VariantA.delete_book collection book_id).1 ≠ 200 →
       (VariantA.delete_book collection book_id).2 = collection).
Proof.
  intros collection book_id data. split; [|split].
  - unfold VariantA.create_book, subscript.
    destruct (first_missing _ _); [done|].
    destruct (data !! "id"); [|done]. destruct (data !! "title"); [|done].
    destruct (data !! "author"); [|done].
    destruct (encoded_find_one _ _ _) as [[?|]|]; [done| |done].
    unfold encoded_insert_one. case_decide; [|done].
    intros Hne. by destruct Hne.
  - unfold VariantA.update_book, subscript.
    repeat case_decide; try done.
    destruct (data !! "title"); [|done]. destruct (data !! "author"); [|done].
    destruct (encoded_find_one _ _ _) as [[?|]|]; [done| |done].
    unfold encoded_update_many. case_decide; [|done].
    destruct (update_many _ _ _) as [result collection'] eqn:Hup.
    case_decide as Hm; [|intros Hne; by destruct Hne]. intros _. cbn [snd].
    pose proof (update_many_matched_0 (matches {[ "ID" := VStr book_id ]})
                  (set_fields (VariantA.update_fields_of data)) collection) as Hzero.
    pose proof (update_many_none (matches {[ "ID" := VStr book_id ]})
                  (set_fields (VariantA.update_fields_of data)) collection) as Hnone.
    rewrite Hup in Hzero, Hnone. cbn [fst snd] in Hzero, Hnone.
    by apply Hnone, Hzero.
  - unfold VariantA.delete_book.
    destruct (delete_one _ _) as [result collection'].
    case_decide; [done|]. intros Hne. by destruct Hne.
Qed.

Lemma failed_request_keeps_store_A_witness :
  (VariantA.create_book VariantA.start_data {[ "id" := VStr "example4" ]}).2
  = VariantA.start_data
  ∧ (VariantA.update_book VariantA.start_data "example9"
       {[ "pages" := VStr "300" ]}).2
    = VariantA.start_data
  ∧ (VariantA.delete_book VariantA.start_data "example9").2 = VariantA.start_data.
Proof.
  split; [|split].
  - apply (proj1 (failed_request_keeps_store_A VariantA.start_data "" _)).
    by vm_compute.
  - apply (proj1 (proj2 (failed_request_keeps_store_A VariantA.start_data
                           "example9" {[ "pages" := VStr "300" ]}))).
    by vm_compute.
  - apply (proj2 (proj2 (failed_request_keeps_store_A VariantA.start_data
                           "example9" ∅))).
    by vm_compute.
Defined.

(** Variant B: likewise, a request that is not answered with its success
    status leaves the store exactly as it was, the update answered with 500
    included. *)
Theorem failed_request_keeps_store_B :
  ∀ (coll : list VariantB.stored) (book_id new_id : string) (data : doc),
    (status_of (VariantB.create_book (Some coll) data new_id).1 ≠ 201 →
     (VariantB.create_book (Some coll) data new_id).2 = Some coll)
    ∧ (status_of (VariantB.update_book (Some coll) book_id data).1 ≠ 200 →
       (VariantB.update_book (Some coll) book_id data).2 = Some coll)
    ∧ (status_of (VariantB.delete_book (Some coll) book_id).1 ≠ 200 →
       (VariantB.delete_book (Some coll) book_id).2 = Some coll).
Proof.
  intros coll book_id new_id data. split; [|split].
  - unfold VariantB.create_book, subscript.
    case_decide; [done|]. destruct (first_missing _ _); [done|].
    destruct (data !! "BookISBN"); [|done].
    destruct (encoded_find_one _ _ _) as [[?|]|]; [done| |done].
    destruct (data !! "BookName"); [|done].
    destruct (data !! "BookAuthor"); [|done].
    destruct (data !! "BookPages"); [|done].
    destruct (data !! "BookYear"); [|done].
    unfold VariantB.try_except, encoded_insert_one.
    case_decide; [|done]. cbn [fst snd status_of].
    intros Hne. by destruct Hne.
  - unfold VariantB.update_book.
    case_decide; [done|]. destruct (ObjectId.parse book_id) as [oid|]; [|done].
    case_decide; [done|].
    unfold encoded_update_one. case_decide; [|done].
    destruct (update_one_cases (λ book, VariantB._id book = oid)
                (VariantB.set_stored (VariantB.update_fields_of data)) coll)
      as [[_ ->]|(l1 & d & l2 & -> & _ & _ & ->)].
    + by rewrite decide_True.
    + cbn [matched_count modified_count]. rewrite decide_False by done.
      unfold VariantB.try_except.
      case_decide; cbn [fst snd status_of]; intros Hne; by destruct Hne.
  - unfold VariantB.delete_book.
    destruct (ObjectId.parse book_id) as [oid|]; [|done].
    destruct (delete_one _ _) as [result coll'].
    unfold VariantB.try_except.
    case_decide; [done|]. cbn [fst snd status_of]. intros Hne. by destruct Hne.
Qed.

Lemma failed_request_keeps_store_B_witness :
  (VariantB.create_book (Some VariantB.seeded)
     {[ "BookISBN" := VStr "958-30-0804-4" ]} "65f0c0ffee65f0c0ffee0004").2
  = Some VariantB.seeded
  ∧ (VariantB.update_book (Some VariantB.seeded) "65f0c0ffee65f0c0ffee0009"
       {[ "BookName" := VStr "Dracula" ]}).2
    = Some VariantB.seeded
  ∧ (VariantB.delete_book (Some VariantB.seeded) "example1").2
    = Some VariantB.seeded.
Proof.
  split; [|split].
  - apply (proj1 (failed_request_keeps_store_B VariantB.seeded "" _ _)).
    by vm_compute.
  - apply (proj1 (proj2 (failed_request_keeps_store_B VariantB.seeded
                           "65f0c0ffee65f0c0ffee0009" ""
                           {[ "BookName" := VStr "Dracula" ]}))).
    by vm_compute.
  - apply (proj2 (proj2 (failed_request_keeps_store_B VariantB.seeded
                           "example1" "" ∅))).
    by vm_compute.
Defined.

(** ** Update: what it never does, and doing it twice *)

Lemma try_except_snd {S : Type} (body : outcome * S) (error : string) :
  (VariantB.try_except body error).2 = body.2.
Proof. unfold VariantB.try_except. by destruct body as [[] ?]. Qed.

(** An update never adds or removes a document: in variant A the store
    keeps its length, in variant B the sequence of [_id]s stays as it
    was. *)
Theorem update_book_keeps_records :
  (∀ (collection : list doc) (book_id : string) (data : doc),
     length (VariantA.update_book collection book_id data).2 = length collection)
  ∧ (∀ (coll : list VariantB.stored) (book_id : string) (data : doc),
       ∃ coll', (VariantB.update_book (Some coll) book_id data).2 = Some coll'
                ∧ VariantB._id <$> coll' = VariantB._id <$> coll).
Proof.
  split.
  - intros collection book_id data. unfold VariantA.update_book, subscript.
    repeat case_decide; try done.
    destruct (data !! "title"); [|done]. destruct (data !! "author"); [|done].
    destruct (encoded_find_one _ _ _) as [[?|]|]; [done| |done].
    unfold encoded_update_many. case_decide; [|done].
    destruct (update_many _ _ _) as [result collection'] eqn:Hup.
    assert (collection' = (update_many (matches {[ "ID" := VStr book_id ]})
              (set_fields (VariantA.update_fields_of data)) collection).2) as ->
      by (by rewrite Hup).
    unfold update_many. case_decide; cbn [snd]; apply length_fmap.
  - intros coll book_id data. unfold VariantB.update_book.
    case_decide; [by eauto|].
    destruct (ObjectId.parse book_id) as [oid|]; [|by eauto].
    case_decide; [by eauto|]. rewrite try_except_snd.
    unfold encoded_update_one. case_decide; [|by eauto].
    destruct (update_one_cases (λ book, VariantB._id book = oid)
                (VariantB.set_stored (VariantB.update_fields_of data)) coll)
      as [[_ ->]|(l1 & d & l2 & -> & _ & _ & ->)].
    + exists coll. by repeat case_decide.
    + eexists. split; [by repeat case_decide|].
      by rewrite !fmap_app, !fmap_cons.
Qed.

Lemma set_fields_idemp (fields d : doc) :
  set_fields fields (set_fields fields d) = set_fields fields d.
Proof. unfold set_fields. by rewrite (assoc_L (∪)), (idemp_L (∪)). Qed.

Lemma update_book_A_store (collection : list doc) (book_id : string) (data : doc) :
  (VariantA.update_book collection book_id data).2 = collection
  ∨ (data ≠ ∅ ∧ VariantA.update_fields_of data ≠ ∅
     ∧ is_Some (data !! "title") ∧ is_Some (data !! "author")
     ∧ (VariantA.update_book collection book_id data).2
       = (λ b : doc, if decide (matches {[ "ID" := VStr book_id ]} b)
                     then set_fields (VariantA.update_fields_of data) b else b)
           <$> collection).
Proof.
  unfold VariantA.update_book, subscript.
  case_decide; [by left|]. case_decide; [by left|].
  destruct (data !! "title"); [|by left]. destruct (data !! "author"); [|by left].
  destruct (encoded_find_one _ _ _) as [[?|]|]; [by left| |by left].
  unfold encoded_update_many. case_decide; [|by left]. right.
  destruct (update_many _ _ _) as [result collection'] eqn:Hup.
  assert (collection' = (update_many (matches {[ "ID" := VStr book_id ]})
            (set_fields (VariantA.update_fields_of data)) collection).2) as ->
    by (by rewrite Hup).
  do 4 (split; [by eauto|]). by case_decide.
Qed.

Lemma update_book_B_hit (l1 l2 : list VariantB.stored) (d : VariantB.stored)
    (book_id oid : string) (data : doc) :
  data ≠ ∅ → ObjectId.parse book_id = Some oid →
  VariantB.update_fields_of data ≠ ∅ →
  Bson.storable (VariantB.update_fields_of data) →
  Forall (λ b, VariantB._id b ≠ oid) l1 → VariantB._id d = oid →
  (VariantB.update_book (Some (l1 ++ d :: l2)) book_id data).2
  = Some (l1 ++ VariantB.set_stored (VariantB.update_fields_of data) d :: l2).
Proof.
  intros Hdata Hparse Hfields Hsent Hl1 Hd. unfold VariantB.update_book.
  rewrite decide_False by done. rewrite Hparse. rewrite decide_False by done.
  unfold encoded_update_one. rewrite decide_True by done.
  rewrite try_except_snd, update_one_first by done.
  by repeat case_decide.
Qed.

Lemma update_book_B_store (coll : list VariantB.stored) (book_id : string)
    (data : doc) :
  (VariantB.update_book (Some coll) book_id data).2 = Some coll
  ∨ ∃ oid l1 d l2,
      data ≠ ∅ ∧ ObjectId.parse book_id = Some oid
      ∧ VariantB.update_fields_of data ≠ ∅
      ∧ Bson.storable (VariantB.update_fields_of data)
      ∧ coll = l1 ++ d :: l2 ∧ VariantB._id d = oid
      ∧ Forall (λ b, VariantB._id b ≠ oid) l1.
Proof.
  unfold VariantB.update_book.
  case_decide as Hdata; [by left|].
  destruct (ObjectId.parse book_id) as [oid|] eqn:Hparse; [|by left].
  case_decide as Hfields; [by left|].
  unfold encoded_update_one. case_decide as Hsent; [|by left].
  destruct (update_one_cases (λ book, VariantB._id book = oid)
              (VariantB.set_stored (VariantB.update_fields_of data)) coll)
    as [[_ Hup]|(l1 & d & l2 & -> & Hd & Hl1 & _)].
  - left. rewrite try_except_snd, Hup. by rewrite decide_True.
  - right. by exists oid, l1, d, l2.
Qed.

(** Sending the same update twice leaves the store as the first one left
    it, whatever the answers are (in variant A the second answer may be
    409), in both variants. *)
Theorem update_book_twice :
  (∀ (collection : list doc) (book_id : string) (data : doc),
     (VariantA.update_book
        (VariantA.update_book collection book_id data).2 book_id data).2
     = (VariantA.update_book collection book_id data).2)
  ∧ (∀ (coll : list VariantB.stored) (book_id : string) (data : doc),
       (VariantB.update_book
          (VariantB.update_book (Some coll) book_id data).2 book_id data).2
       = (VariantB.update_book (Some coll) book_id data).2).
Proof.
  split.
  - intros collection book_id data.
    destruct (update_book_A_store collection book_id data)
      as [Hkept|(Hdata & Hfields & _ & _ & ->)]; [by rewrite Hkept|].
    destruct (update_book_A_store
                ((λ b : doc, if decide (matches {[ "ID" := VStr book_id ]} b)
                             then set_fields (VariantA.update_fields_of data) b
                             else b) <$> collection) book_id data)
      as [Hkept|(_ & _ & _ & _ & ->)]; [done|].
    rewrite <- list_fmap_compose. apply list_fmap_ext. intros i b _.
    unfold compose. destruct (decide (matches {[ "ID" := VStr book_id ]} b)) as [Hb|Hb].
    + rewrite decide_True; [apply set_fields_idemp|].
      apply matches_ID. apply matches_ID in Hb. unfold set_fields.
      by rewrite lookup_union_r by apply update_fields_of_ID.
    + by rewrite decide_False.
  - intros coll book_id data.
    destruct (update_book_B_store coll book_id data)
      as [Hkept|(oid & l1 & d & l2 & Hdata & Hparse & Hfields & Hsent & -> & Hd
                 & Hl1)];
      [by rewrite Hkept|].
    rewrite (update_book_B_hit l1 l2 d book_id oid data) by done.
    rewrite (update_book_B_hit l1 l2 _ book_id oid data) by done.
    do 2 f_equal. unfold VariantB.set_stored. cbn [VariantB._id VariantB.fields].
    by rewrite set_fields_idemp.
Qed.

(** ** Create followed by delete *)





(** ** Update: the answers around a missing document *)



(** Variant A: an update whose payload holds an allow-listed key other than
    [id] but no [title] ends in [KeyError('title')]; one that holds [title]
    but no [author] ends in [KeyError('author')]; in both cases before the
    store is consulted, so the store stays as it is. *)
Theorem update_book_A_needs_title_and_author :
  ∀ (collection : list doc) (book_id : string) (data : doc),
    (∃ ext int, (ext, int) ∈ VariantA.allowed_fields ∧ ext ≠ "id"
                ∧ is_Some (data !! ext)) →
    (data !! "title" = None →
     VariantA.update_book collection book_id data
     = (Raised "KeyError" "title", collection))
    ∧ (is_Some (data !! "title") → data !! "author" = None →
       VariantA.update_book collection book_id data
       = (Raised "KeyError" "author", collection)).
Proof.
  intros collection book_id data (ext & int & Hin & Hext & Hsome).
  assert (VariantA.update_fields_of data ≠ ∅) as Hfields.
  { intros Hempty. rewrite update_fields_of_empty_A in Hempty.
    rewrite (Hempty ext int Hin Hext) in Hsome. by destruct Hsome. }
  assert (data ≠ ∅) as Hdata.
  { intros ->. rewrite lookup_empty in Hsome. by destruct Hsome. }
  unfold VariantA.update_book, subscript.
  rewrite decide_False by done. rewrite decide_False by done.
  split.
  - by intros ->.
  - intros [title ->] ->. done.
Qed.

Lemma update_book_A_needs_title_and_author_witness :
  VariantA.update_book VariantA.start_data "example1" {[ "pages" := VStr "300" ]}
  = (Raised "KeyError" "title", VariantA.start_data)
  ∧ VariantA.update_book VariantA.start_data "example1"
      {[ "title" := VStr "The Vortex, revised" ]}
    = (Raised "KeyError" "author", VariantA.start_data).
Proof.
  split.
  - refine (proj1 (update_book_A_needs_title_and_author VariantA.start_data
                     "example1" {[ "pages" := VStr "300" ]} _) _);
      [|reflexivity].
    exists "pages", "BookPages". split; [by_computation|].
    split; [done | by eexists].
  - refine (proj2 (update_book_A_needs_title_and_author VariantA.start_data
                     "example1" {[ "title" := VStr "The Vortex, revised" ]} _) _ _);
      [| by eexists | reflexivity].
    exists "title", "BookName". split; [by_computation|].
    split; [done | by eexists].
Defined.

Lemma update_book_unknown_id_B_witness :
  VariantB.update_book (Some VariantB.seeded) "65f0c0ffee65f0c0ffee0009"
    {[ "BookPages" := VInt 288 ]}
  = (Response 500
       {[ "error" := VStr "Failed to update book due to a database error." ]},
     Some VariantB.seeded).
Proof.
  refine (update_book_unknown_id_B VariantB.seeded "65f0c0ffee65f0c0ffee0009"
            "65f0c0ffee65f0c0ffee0009" {[ "BookPages" := VInt 288 ]} _ _ _);
    [reflexivity | by_computation | by_computation].
Defined.

(** ** Create: which missing field is reported *)

Lemma first_missing_split fields data field :
  first_missing fields data = Some field →
  ∃ pre post, fields = pre ++ field :: post
              ∧ Forall (λ f, is_Some (data !! f)) pre ∧ data !! field = None.
Proof.
  induction fields as [|f rest IH]; simpl; [done|].
  destruct (decide (data !! f = None)) as [Hf|Hf].
  - intros [= <-]. exists [], rest. by repeat split.
  - intros (pre & post & -> & Hpre & Hnone)%IH.
    exists (f :: pre), post. repeat split; [|done].
    constructor; [by apply not_eq_None_Some | done].
Qed.

(** A create payload that lacks a required field is answered with the name
    of the first one it lacks, in the order [id], [title], [author]
    (variant A) or [BookName], [BookAuthor], [BookISBN], [BookPages],
    [BookYear] (variant B); in variant B an empty payload is answered with
    "Invalid JSON body." instead. *)
Theorem create_book_names_first_missing_field :
  (∀ (collection : list doc) (data : doc),
     (∃ field, field ∈ VariantA.required_fields ∧ data !! field = None) →
     ∃ pre field post,
       VariantA.required_fields = pre ++ field :: post
       ∧ Forall (λ f, is_Some (data !! f)) pre ∧ data !! field = None
       ∧ VariantA.create_book collection data
         = (Response 400 {[ "error" := VStr ("Missing field: " +:+ field) ]},
            collection))
  ∧ (∀ (coll : list VariantB.stored) (data : doc) (new_id : string),
       (∃ field, field ∈ VariantB.required_fields ∧ data !! field = None) →
       (data = ∅ →
        VariantB.create_book (Some coll) data new_id
        = (Abort 400 "Invalid JSON body.", Some coll))
       ∧ (data ≠ ∅ →
          ∃ pre field post,
            VariantB.required_fields = pre ++ field :: post
            ∧ Forall (λ f, is_Some (data !! f)) pre ∧ data !! field = None
            ∧ VariantB.create_book (Some coll) data new_id
              = (Response 400
                   {[ "error" :=
                        VStr ("Missing required field: '" +:+ field +:+ "'") ]},
                 Some coll))).
Proof.
  split.
  - intros collection data (field & Hin & Hnone).
    destruct (first_missing_Some _ _ _ Hin Hnone) as [f Hf].
    destruct (first_missing_split _ _ _ Hf) as (pre & post & Hsplit & Hpre & Hf').
    exists pre, f, post. unfold VariantA.create_book. by rewrite Hf.
  - intros coll data new_id (field & Hin & Hnone). split.
    + intros ->. unfold VariantB.create_book. by rewrite decide_True.
    + intros Hdata.
      destruct (first_missing_Some _ _ _ Hin Hnone) as [f Hf].
      destruct (first_missing_split _ _ _ Hf) as (pre & post & Hsplit & Hpre & Hf').
      exists pre, f, post. unfold VariantB.create_book.
      rewrite decide_False by done. by rewrite Hf.
Qed.

Lemma create_book_names_first_missing_field_witness :
  (∃ pre field post,
     VariantA.required_fields = pre ++ field :: post
     ∧ Forall (λ f, is_Some (({[ "id" := VStr "example4" ]} : doc) !! f)) pre
     ∧ ({[ "id" := VStr "example4" ]} : doc) !! field = None
     ∧ VariantA.create_book VariantA.start_data {[ "id" := VStr "example4" ]}
       = (Response 400 {[ "error" := VStr ("Missing field: " +:+ field) ]},
          VariantA.start_data))
  ∧ VariantB.create_book (Some VariantB.seeded) ∅ "65f0c0ffee65f0c0ffee0004"
    = (Abort 400 "Invalid JSON body.", Some VariantB.seeded)
  ∧ (∃ pre field post,
       VariantB.required_fields = pre ++ field :: post
       ∧ Forall (λ f, is_Some (({[ "BookName" := VStr "Dracula" ]} : doc) !! f)) pre
       ∧ ({[ "BookName" := VStr "Dracula" ]} : doc) !! field = None
       ∧ VariantB.create_book (Some VariantB.seeded)
           {[ "BookName" := VStr "Dracula" ]} "65f0c0ffee65f0c0ffee0004"
         = (Response 400
              {[ "error" := VStr ("Missing required field: '" +:+ field +:+ "'") ]},
            Some VariantB.seeded)).
Proof.
  split; [|split].
  - apply (proj1 create_book_names_first_missing_field VariantA.start_data).
    exists "author". split; [by_computation | reflexivity].
  - refine (proj1 (proj2 create_book_names_first_missing_field VariantB.seeded ∅
                     "65f0c0ffee65f0c0ffee0004" _) eq_refl).
    exists "BookISBN". split; [by_computation | reflexivity].
  - refine (proj2 (proj2 create_book_names_first_missing_field VariantB.seeded
                     {[ "BookName" := VStr "Dracula" ]}
                     "65f0c0ffee65f0c0ffee0004" _) _).
    + exists "BookISBN". split; [by_computation | reflexivity].
    + by_computation.
Defined.

(** ** Authors and years: when sorting fails *)

Lemma all_str_or_int l : Py.all_str l ∨ ∃ n, VInt n ∈ l.
Proof.
  induction l as [|[s|n] l [IH|[m Hm]]].
  - left. constructor.
  - left. constructor; by eauto.
  - right. exists m. by right.
  - right. exists n. by left.
  - right. exists n. by left.
Qed.

Lemma all_int_or_str l : Py.all_int l ∨ ∃ s, VStr s ∈ l.
Proof.
  induction l as [|[s|n] l [IH|[m Hm]]].
  - left. constructor.
  - right. exists s. by left.
  - right. exists s. by left.
  - left. constructor; by eauto.
  - right. exists m. by right.
Qed.

Lemma sorted_Some_one_type l r :
  Py.sorted l = Some r → Py.all_str l ∨ Py.all_int l.
Proof.
  revert r. induction l as [|x l IH]; intros r; [left; constructor|].
  cbn [Py.sorted]. destruct (Py.sorted l) as [r'|] eqn:Hr'; [|done].
  cbn [mbind option_bind]. intros Hins.
  destruct (IH r' eq_refl) as [Hstr|Hint].
  - destruct r' as [|y r''].
    + apply sorted_perm, Permutation_nil_l in Hr'. subst l.
      destruct x; [left|right]; repeat constructor; by eauto.
    + assert (y ∈ l) as Hy by (rewrite <- (sorted_perm _ _ Hr'); left).
      destruct (proj1 (Forall_forall _ _) Hstr y Hy) as [s ->].
      destruct x as [a|a]; [left; constructor; by eauto|].
      by cbn [Py.insert_sorted Py.lt mbind option_bind] in Hins.
  - destruct r' as [|y r''].
    + apply sorted_perm, Permutation_nil_l in Hr'. subst l.
      destruct x; [left|right]; repeat constructor; by eauto.
    + assert (y ∈ l) as Hy by (rewrite <- (sorted_perm _ _ Hr'); left).
      destruct (proj1 (Forall_forall _ _) Hint y Hy) as [n ->].
      destruct x as [a|a]; [|right; constructor; by eauto].
      by cbn [Py.insert_sorted Py.lt mbind option_bind] in Hins.
Qed.

(** [sorted] raises exactly on a list that holds a string and an integer. *)
Lemma sorted_None l :
  Py.sorted l = None ↔ (∃ s, VStr s ∈ l) ∧ (∃ n, VInt n ∈ l).
Proof.
  split.
  - intros Hnone.
    destruct (all_str_or_int l) as [Hstr|Hint].
    { destruct (sorted_total l) as [r Hr]; [by left | congruence]. }
    destruct (all_int_or_str l) as [Hint'|Hstr].
    { destruct (sorted_total l) as [r Hr]; [by right | congruence]. }
    done.
  - intros [[s Hs] [n Hn]]. destruct (Py.sorted l) as [r|] eqn:Hr; [|done].
    destruct (sorted_Some_one_type l r Hr) as [Hall|Hall].
    + by destruct (proj1 (Forall_forall _ _) Hall _ Hn).
    + by destruct (proj1 (Forall_forall _ _) Hall _ Hs).
Qed.

(** The year list (and likewise the author list) cannot be produced, the
    sort raising [TypeError], exactly when the values concerned hold a
    string and an integer: in variant A a non-empty string and a non-zero
    integer, in variant B any string and any integer. *)
Theorem years_type_error :
  (∀ collection : list doc,
     VariantA.years collection = None
     ↔ (∃ (b : doc) s, b ∈ collection ∧ b !! "BookYear" = Some (VStr s) ∧ s ≠ "")
       ∧ (∃ (b : doc) n, b ∈ collection ∧ b !! "BookYear" = Some (VInt n) ∧ n ≠ 0))
  ∧ (∀ collection : list doc,
       VariantA.authors collection = None
       ↔ (∃ (b : doc) s, b ∈ collection ∧ b !! "BookAuthor" = Some (VStr s)
                         ∧ s ≠ "")
         ∧ (∃ (b : doc) n, b ∈ collection ∧ b !! "BookAuthor" = Some (VInt n)
                           ∧ n ≠ 0))
  ∧ (∀ coll : list VariantB.stored,
       VariantB.years (Some coll) = inr None
       ↔ (∃ b s, b ∈ coll ∧ VariantB.fields b !! "BookYear" = Some (VStr s))
         ∧ (∃ b n, b ∈ coll ∧ VariantB.fields b !! "BookYear" = Some (VInt n)))
  ∧ (∀ coll : list VariantB.stored,
       VariantB.authors (Some coll) = inr None
       ↔ (∃ b s, b ∈ coll ∧ VariantB.fields b !! "BookAuthor" = Some (VStr s))
         ∧ (∃ b n, b ∈ coll ∧ VariantB.fields b !! "BookAuthor" = Some (VInt n))).
Proof.
  assert (∀ s, Py.truthy (VStr s) = true ↔ s ≠ "") as Hstr.
  { intros s. unfold Py.truthy. rewrite negb_true_iff. apply String.eqb_neq. }
  assert (∀ n, Py.truthy (VInt n) = true ↔ n ≠ 0) as Hint.
  { intros n. unfold Py.truthy. rewrite negb_true_iff. apply Z.eqb_neq. }
  assert (∀ field (collection : list doc),
            Py.sorted (elements (VariantA.field_set field collection)) = None
            ↔ (∃ (b : doc) s, b ∈ collection ∧ b !! field = Some (VStr s) ∧ s ≠ "")
              ∧ (∃ (b : doc) n, b ∈ collection ∧ b !! field = Some (VInt n)
                                ∧ n ≠ 0))
    as HA.
  { intros field collection. rewrite sorted_None. split.
    - intros [[s Hs] [n Hn]].
      rewrite elem_of_elements, elem_of_field_set in Hs, Hn.
      destruct Hs as (Hts & b & ? & ?), Hn as (Htn & b' & ? & ?).
      apply Hstr in Hts. apply Hint in Htn. by eauto 10.
    - intros [(b & s & ? & ? & Hs) (b' & n & ? & ? & Hn)]. split.
      + exists s. rewrite elem_of_elements, elem_of_field_set.
        apply Hstr in Hs. by eauto.
      + exists n. rewrite elem_of_elements, elem_of_field_set.
        apply Hint in Hn. by eauto. }
  assert (∀ field (coll : list VariantB.stored),
            Py.sorted (elements (VariantB.distinct field coll)) = None
            ↔ (∃ b s, b ∈ coll ∧ VariantB.fields b !! field = Some (VStr s))
              ∧ (∃ b n, b ∈ coll ∧ VariantB.fields b !! field = Some (VInt n)))
    as HB.
  { intros field coll. rewrite sorted_None. split.
    - intros [[s Hs] [n Hn]]. rewrite elem_of_elements, elem_of_distinct in Hs, Hn.
      destruct Hs as (b & ? & ?), Hn as (b' & ? & ?). by eauto 10.
    - intros [(b & s & ? & ?) (b' & n & ? & ?)]. split.
      + exists s. rewrite elem_of_elements, elem_of_distinct. by eauto.
      + exists n. rewrite elem_of_elements, elem_of_distinct. by eauto. }
  split; [|split; [|split]].
  - intros collection. apply HA.
  - intros collection. apply HA.
  - intros coll. unfold VariantB.years. rewrite <- HB. split.
    + by intros [= ->].
    + by intros ->.
  - intros coll. unfold VariantB.authors. rewrite <- HB. split.
    + by intros [= ->].
    + by intros ->.
Qed.

Lemma years_type_error_witness :
  VariantA.years
    (VariantA.start_data ++ [ {[ "ID" := VStr "example4"; "BookYear" := VInt 1897 ]} ])
  = None
  ∧ VariantB.years
      (Some (VariantB.seeded
             ++ [ {| VariantB._id := "65f0c0ffee65f0c0ffee0004";
                     VariantB.fields := {[ "BookYear" := VStr "1897" ]} |} ]))
    = inr None.
Proof.
  split.
  - apply (proj1 years_type_error). split.
    + eexists _, "1924". split; [apply elem_of_app; left; left|].
      split; [reflexivity | done].
    + exists {[ "ID" := VStr "example4"; "BookYear" := VInt 1897 ]}, 1897.
      split; [by_computation|]. split; [reflexivity | done].
  - apply (proj1 (proj2 (proj2 years_type_error))). split.
    + exists {| VariantB._id := "65f0c0ffee65f0c0ffee0004";
                VariantB.fields := {[ "BookYear" := VStr "1897" ]} |}, "1897".
      split; [by_computation | reflexivity].
    + eexists _, 1924. split; [apply elem_of_app; left; left | reflexivity].
Defined.


(** ** Seeding the collection *)

Lemma prepare_data_loop_A_settled (books collection : list doc) :
  Forall (λ book : doc,
            is_Some (book !! "ID")
            ∧ ∃ d : doc, d ∈ collection ∧ d !! "ID" = book !! "ID") books →
  VariantA.prepare_data_loop books collection = (None, collection).
Proof.
  induction 1 as [|book rest [[id Hid] (d & Hin & Hd)] _ IH]; [done|].
  cbn [VariantA.prepare_data_loop]. rewrite Hid.
  destruct (find_one _ _) eqn:Hfind; [done|].
  apply find_one_None in Hfind. rewrite Forall_forall in Hfind.
  destruct (Hfind d Hin). apply matches_ID. congruence.
Qed.

Lemma prepare_data_loop_A_spec (books collection : list doc) :
  Forall (λ book : doc, is_Some (book !! "ID")) books →
  ∃ added,
    VariantA.prepare_data_loop books collection = (None, collection ++ added)
    ∧ sublist added books
    ∧ Forall (λ book : doc,
                ∃ d : doc, d ∈ collection ++ added ∧ d !! "ID" = book !! "ID")
             books
    ∧ Forall (λ book : doc,
                Forall (λ d : doc, d !! "ID" ≠ book !! "ID") collection)
             added.
Proof.
  intros Hids. revert collection.
  induction Hids as [|book rest [id Hid] _ IH]; intros collection.
  { exists []. rewrite app_nil_r. by repeat split. }
  cbn [VariantA.prepare_data_loop]. rewrite Hid.
  destruct (find_one _ _) as [d|] eqn:Hfind.
  - apply find_one_Some in Hfind as [Hin Hd]. apply matches_ID in Hd.
    destruct (IH collection) as (added & -> & Hsub & Hpresent & Habsent).
    exists added. split; [done|]. split; [by apply sublist_cons|].
    split; [|done]. constructor; [|done].
    exists d. split; [apply elem_of_app; by left | congruence].
  - apply find_one_None in Hfind.
    destruct (IH (insert_one book collection))
      as (added & -> & Hsub & Hpresent & Habsent).
    unfold insert_one in *. exists (book :: added).
    split; [by rewrite <- (assoc_L (++))|].
    split; [by apply sublist_skip|]. split.
    + rewrite <- (assoc_L (++)) in Hpresent. constructor; [|done].
      exists book. split; [|done]. apply elem_of_app. right. left.
    + constructor.
      * eapply Forall_impl; [done|]. intros d Hd Heq. apply Hd.
        apply matches_ID. congruence.
      * eapply Forall_impl; [done|]. intros b Hb.
        by apply Forall_app in Hb as [Hb _].
Qed.

(** Variant A: [prepare_data] raises nothing, keeps every stored document
    in place and appends seed documents only, in seed order; it appends a
    seed only if no stored document carries its [ID]; afterwards every
    seed's [ID] is carried by a stored document, and running it again
    changes nothing. *)
Theorem prepare_data_A_seeds :
  ∀ collection : list doc,
    ∃ added,
      VariantA.prepare_data collection = (None, collection ++ added)
      ∧ sublist added VariantA.start_data
      ∧ Forall (λ book : doc,
                  ∃ d : doc, d ∈ collection ++ added ∧ d !! "ID" = book !! "ID")
               VariantA.start_data
      ∧ Forall (λ book : doc,
                  Forall (λ d : doc, d !! "ID" ≠ book !! "ID") collection)
               added
      ∧ VariantA.prepare_data (collection ++ added) = (None, collection ++ added).
Proof.
  intros collection.
  assert (Forall (λ book : doc, is_Some (book !! "ID")) VariantA.start_data)
    as Hids by by_computation.
  destruct (prepare_data_loop_A_spec VariantA.start_data collection Hids)
    as (added & Hrun & Hsub & Hpresent & Habsent).
  exists added. do 4 (split; [done|]).
  apply prepare_data_loop_A_settled.
  apply Forall_forall. intros book Hin. split.
  - by apply (proj1 (Forall_forall _ _) Hids).
  - by apply (proj1 (Forall_forall _ _) Hpresent).
Qed.

Example prepare_data_A_empty :
  VariantA.prepare_data [] = (None, VariantA.start_data).
Proof. reflexivity. Qed.

Example prepare_data_A_partial :
  VariantA.prepare_data [ {[ "ID" := VStr "example2"; "BookName" := VStr "Mine" ]} ]
  = (None,
     [ {[ "ID" := VStr "example2"; "BookName" := VStr "Mine" ]};
       VariantA.start_data !!! 0%nat; VariantA.start_data !!! 2%nat ]).
Proof. reflexivity. Qed.

Lemma prepare_data_loop_B_settled (books : list doc) (gen : nat → string)
    (n : nat) (coll : list VariantB.stored) :
  Forall (λ book : doc,
            seed_ready book
            ∧ ∃ d, d ∈ coll ∧ VariantB.isbn_of d = book !! "BookISBN") books →
  VariantB.prepare_data_loop books gen n coll = (None, coll).
Proof.
  induction 1 as [|book rest [[[isbn Hisbn] [name Hname]] (d & Hin & Hd)] _ IH];
    [done|].
  cbn [VariantB.prepare_data_loop]. rewrite Hisbn.
  destruct (find_one _ _) eqn:Hfind; [by rewrite Hname|].
  apply find_one_None in Hfind. rewrite Forall_forall in Hfind.
  destruct (Hfind d Hin). unfold VariantB.isbn_of in Hd. congruence.
Qed.

Lemma prepare_data_loop_B_spec (books : list doc) (gen : nat → string)
    (n : nat) (coll : list VariantB.stored) :
  Forall seed_ready books →
  ∃ added,
    VariantB.prepare_data_loop books gen n coll = (None, coll ++ added)
    ∧ sublist (VariantB.fields <$> added) books
    ∧ VariantB._id <$> added = gen <$> seq n (length added)
    ∧ Forall (λ book : doc,
                ∃ d, d ∈ coll ++ added ∧ VariantB.isbn_of d = book !! "BookISBN")
             books
    ∧ (NoDup (omap VariantB.isbn_of coll) →
       NoDup (omap VariantB.isbn_of (coll ++ added))).
Proof.
  intros Hready. revert n coll.
  induction Hready as [|book rest [[isbn Hisbn] [name Hname]] _ IH]; intros n coll.
  { exists []. rewrite app_nil_r. by repeat split. }
  cbn [VariantB.prepare_data_loop]. rewrite Hisbn, Hname.
  destruct (find_one _ _) as [d|] eqn:Hfind.
  - apply find_one_Some in Hfind as [Hin Hd].
    destruct (IH n coll) as (added & -> & Hsub & Hids & Hpresent & Hnodup).
    exists added. split; [done|]. split; [by apply sublist_cons|].
    split; [done|]. split; [|done]. constructor; [|done].
    exists d. split; [apply elem_of_app; by left|].
    unfold VariantB.isbn_of. congruence.
  - apply find_one_None in Hfind.
    destruct (IH (S n) (insert_one {| VariantB._id := gen n;
                                      VariantB.fields := book |} coll))
      as (added & -> & Hsub & Hids & Hpresent & Hnodup).
    unfold insert_one in *.
    exists ({| VariantB._id := gen n; VariantB.fields := book |} :: added).
    split; [by rewrite <- (assoc_L (++))|].
    split; [rewrite fmap_cons; by apply sublist_skip|].
    split; [rewrite fmap_cons; cbn [length seq]; rewrite fmap_cons; by f_equal|].
    rewrite <- (assoc_L (++)) in Hpresent, Hnodup. split.
    + constructor; [|done].
      exists {| VariantB._id := gen n; VariantB.fields := book |}.
      split; [|done]. apply elem_of_app. right. left.
    + assert (omap VariantB.isbn_of
                     [ {| VariantB._id := gen n; VariantB.fields := book |} ]
              = [isbn]) as Hone.
      { cbn. unfold VariantB.isbn_of. cbn [VariantB.fields]. by rewrite Hisbn. }
      intros Hcoll. apply Hnodup. rewrite omap_app, Hone. apply NoDup_app.
      split; [done|]. split; [|apply NoDup_singleton].
      intros v (b & Hin & Hb)%list_elem_of_omap Hv.
      apply list_elem_of_singleton in Hv. subst v.
      rewrite Forall_forall in Hfind. by apply (Hfind b Hin).
Qed.

Lemma create_book_B_conflict (coll : list VariantB.stored) (data : doc)
    (new_id : string) (isbn : Value) :
  (∀ field, field ∈ VariantB.required_fields → is_Some (data !! field)) →
  data !! "BookISBN" = Some isbn →
  (∃ b, b ∈ coll ∧ VariantB.isbn_of b = Some isbn) →
  VariantB.create_book (Some coll) data new_id
  = (Response 409 {[ "error" := VStr "Book with this ISBN already exists." ]},
     Some coll).
Proof.
  intros Hreq Hisbn (b & Hin & Hb). unfold VariantB.create_book, subscript.
  rewrite decide_False by (intros ->; by rewrite lookup_empty in Hisbn).
  apply first_missing_None in Hreq. rewrite Hreq, Hisbn.
  find_one_cases d0 Hin0 Hd0 Hfind Hsent; [done| |];
    rewrite Forall_forall in Hfind; by destruct (Hfind b Hin).
Qed.

(** Variant B: [prepare_data] raises nothing, keeps every stored document
    in place and appends seed documents only, in seed order and under the
    identifiers the driver generates in turn; it keeps [BookISBN] unique
    when it was; afterwards every seed's [BookISBN] is carried by a stored
    document, running it again changes nothing, and creating a seed book
    again is answered with 409. *)
Theorem prepare_data_B_seeds :
  ∀ (gen : nat → string) (coll : list VariantB.stored),
    ∃ added,
      VariantB.prepare_data gen coll = (None, coll ++ added)
      ∧ sublist (VariantB.fields <$> added) VariantB.start_data
      ∧ VariantB._id <$> added = gen <$> seq 0 (length added)
      ∧ Forall (λ book : doc,
                  ∃ d, d ∈ coll ++ added
                       ∧ VariantB.isbn_of d = book !! "BookISBN")
               VariantB.start_data
      ∧ (NoDup (omap VariantB.isbn_of coll) →
         NoDup (omap VariantB.isbn_of (coll ++ added)))
      ∧ (∀ gen', VariantB.prepare_data gen' (coll ++ added)
                 = (None, coll ++ added))
      ∧ Forall (λ book : doc,
                  ∀ new_id,
                    VariantB.create_book (Some (coll ++ added)) book new_id
                    = (Response 409
                         {[ "error" := VStr "Book with this ISBN already exists." ]},
                       Some (coll ++ added)))
               VariantB.start_data.
Proof.
  intros gen coll.
  assert (Forall seed_ready VariantB.start_data) as Hready.
  { unfold seed_ready. by_computation. }
  assert (Forall (λ book : doc,
                    ∀ field, field ∈ VariantB.required_fields →
                             is_Some (book !! field)) VariantB.start_data)
    as Hcomplete.
  { apply (Forall_impl
             (λ book : doc,
                Forall (λ field, is_Some (book !! field)) VariantB.required_fields));
      [by_computation|].
    intros book Hbook. by apply Forall_forall. }
  destruct (prepare_data_loop_B_spec VariantB.start_data gen 0 coll Hready)
    as (added & Hrun & Hsub & Hids & Hpresent & Hnodup).
  exists added. do 5 (split; [done|]). split.
  - intros gen'. apply prepare_data_loop_B_settled.
    apply Forall_forall. intros book Hin. split.
    + by apply (proj1 (Forall_forall _ _) Hready).
    + by apply (proj1 (Forall_forall _ _) Hpresent).
  - apply Forall_forall. intros book Hin new_id.
    destruct (proj1 (Forall_forall _ _) Hready book Hin) as [[isbn Hisbn] _].
    apply (create_book_B_conflict _ _ _ isbn); [|done|].
    + by apply (proj1 (Forall_forall _ _) Hcomplete).
    + destruct (proj1 (Forall_forall _ _) Hpresent book Hin) as (d & ? & Hd).
      exists d. split; [done | congruence].
Qed.

Example prepare_data_B_empty :
  VariantB.prepare_data
    (λ n, "65f0c0ffee65f0c0ffee000" +:+ pretty (S n)) [] = (None, VariantB.seeded).
Proof. reflexivity. Qed.

(** ** Delete twice *)

(** Deleting an identifier that exactly one stored document carries, and
    deleting it again: the first answer is 200, the second 404, and the
    second leaves the store as the first one left it.  In variant B stored
    identifiers are distinct, so this is every successful delete. *)
Theorem delete_book_twice :
  (∀ (l1 l2 : list doc) (book : doc) (book_id : string),
     book !! "ID" = Some (VStr book_id) →
     Forall (λ b : doc, b !! "ID" ≠ Some (VStr book_id)) (l1 ++ l2) →
     status_of (VariantA.delete_book (l1 ++ book :: l2) book_id).1 = 200
     ∧ (VariantA.delete_book (l1 ++ book :: l2) book_id).2 = l1 ++ l2
     ∧ VariantA.delete_book (l1 ++ l2) book_id
       = (Response 404 {[ "error" := VStr "Book not found" ]}, l1 ++ l2))
  ∧ (∀ (coll : list VariantB.stored) (book_id oid : string),
       NoDup (VariantB._id <$> coll) →
       ObjectId.parse book_id = Some oid →
       (∃ b, b ∈ coll ∧ VariantB._id b = oid) →
       ∃ coll',
         status_of (VariantB.delete_book (Some coll) book_id).1 = 200
         ∧ (VariantB.delete_book (Some coll) book_id).2 = Some coll'
         ∧ VariantB.delete_book (Some coll') book_id
           = (Response 404 {[ "error" := VStr "Book not found" ]}, Some coll')).
Proof.
  split.
  - intros l1 l2 book book_id Hbook Hnone.
    apply Forall_app in Hnone as [Hl1 Hl2].
    assert (∀ l : list doc,
              Forall (λ b : doc, b !! "ID" ≠ Some (VStr book_id)) l →
              Forall (λ b : doc, ¬ matches {[ "ID" := VStr book_id ]} b) l) as Hm.
    { intros l Hl. eapply Forall_impl; [done|].
      intros b Hb Hmatch. apply Hb. by apply matches_ID. }
    unfold VariantA.delete_book.
    rewrite delete_one_first by (by first [apply Hm | apply matches_ID]).
    rewrite delete_one_none by (apply Hm, Forall_app; by split).
    by repeat split.
  - intros coll book_id oid Hnodup Hparse Hex.
    destruct (first_match_split (λ b, VariantB._id b = oid) coll Hex)
      as (l1 & book & l2 & -> & Hbook & Hl1).
    assert (Forall (λ b, VariantB._id b ≠ oid) (l1 ++ l2)) as Hnone.
    { apply Forall_app. split; [done|].
      rewrite fmap_app, fmap_cons in Hnodup.
      apply NoDup_app in Hnodup as (_ & _ & Hl2).
      apply NoDup_cons in Hl2 as [Hnotin _].
      apply Forall_forall. intros b Hb Heq. apply Hnotin.
      apply list_elem_of_fmap. exists b. split; [congruence | done]. }
    exists (l1 ++ l2). unfold VariantB.delete_book. rewrite Hparse.
    rewrite delete_one_first by done. rewrite delete_one_none by done.
    by repeat split.
Qed.

Lemma delete_book_twice_witness :
  (status_of (VariantA.delete_book
                (take 1 VariantA.start_data
                 ++ (VariantA.start_data !!! 1%nat) :: drop 2 VariantA.start_data)
                "example2").1 = 200
   ∧ (VariantA.delete_book
        (take 1 VariantA.start_data
         ++ (VariantA.start_data !!! 1%nat) :: drop 2 VariantA.start_data)
        "example2").2
     = take 1 VariantA.start_data ++ drop 2 VariantA.start_data
   ∧ VariantA.delete_book
       (take 1 VariantA.start_data ++ drop 2 VariantA.start_data) "example2"
     = (Response 404 {[ "error" := VStr "Book not found" ]},
        take 1 VariantA.start_data ++ drop 2 VariantA.start_data))
  ∧ (∃ coll',
       status_of (VariantB.delete_book (Some VariantB.seeded)
                    "65f0c0ffee65f0c0ffee0002").1 = 200
       ∧ (VariantB.delete_book (Some VariantB.seeded)
            "65f0c0ffee65f0c0ffee0002").2 = Some coll'
       ∧ VariantB.delete_book (Some coll') "65f0c0ffee65f0c0ffee0002"
         = (Response 404 {[ "error" := VStr "Book not found" ]}, Some coll')).
Proof.
  split.
  - refine (proj1 delete_book_twice _ _ _ "example2" _ _);
      [reflexivity | by_computation].
  - refine (proj2 delete_book_twice VariantB.seeded "65f0c0ffee65f0c0ffee0002"
              "65f0c0ffee65f0c0ffee0002" _ _ _);
      [by_computation | reflexivity |].
    apply Exists_exists. by_computation.
Defined.

(** ** Integers that the store cannot hold *)






(** The fields that an update of variant A sets are values of its
    query. *)
Lemma storable_update_fields_of_book (data : doc) (id title author : Value) :
  data !! "title" = Some title → data !! "author" = Some author →
  Bson.storable (VariantA.book_of id title author data) →
  Bson.storable (VariantA.update_fields_of data).
Proof.
  intros Htitle Hauthor Hbook k v. unfold VariantA.update_fields_of.
  rewrite collect_fields_lookup.
  destruct (collected _ _ _ _) as [v'|] eqn:Hc; [|by rewrite lookup_empty].
  intros [= ->]. apply collected_Some in Hc as (ext & Hin & Hg & Hv).
  unfold VariantA.allowed_fields in Hin.
  repeat (apply elem_of_cons in Hin as [[= -> ->]|Hin]);
    [by vm_compute in Hg| | | | | |by apply elem_of_nil in Hin];
    [apply (Hbook "BookName")|apply (Hbook "BookAuthor")
    |apply (Hbook "BookEdition")|apply (Hbook "BookPages")
    |apply (Hbook "BookYear")];
    unfold VariantA.book_of, Py.get; rewrite ?Hv; simplify_eq; reflexivity.
Qed.

(** What the handlers answer when the payload holds an integer outside
    the signed 64-bit range among the values sent to the store, on a store
    of storable documents: nothing is stored.  Variant A: create and
    update (payload holding [title] and [author]) end in the uncaught
    [OverflowError] of [find_one].  Variant B: create ends in the uncaught
    [OverflowError] of [find_one] when [BookISBN] is such an integer, and
    otherwise, for a new [BookISBN], in the 500 of the [except] branch
    around [insert_one]; update (well-formed identifier) always ends in the
    500 of its [except] branch.  Flask answers an uncaught exception with
    500. *)
Theorem out_of_range_integer_answers_500 :
  (∀ (collection : list doc) (data : doc) (id title author : Value),
     data !! "id" = Some id → data !! "title" = Some title →
     data !! "author" = Some author →
     Forall Bson.storable collection →
     ¬ Bson.storable (VariantA.book_of id title author data) →
     VariantA.create_book collection data = (overflow_error, collection))
  ∧ (∀ (collection : list doc) (book_id : string) (data : doc)
       (title author : Value),
       data !! "title" = Some title → data !! "author" = Some author →
       Forall Bson.storable collection →
       ¬ Bson.storable (VariantA.update_fields_of data) →
       VariantA.update_book collection book_id data = (overflow_error, collection))
  ∧ (∀ (coll : list VariantB.stored) (data : doc) (new_id : string)
       (name author isbn pages year : Value),
       data !! "BookName" = Some name → data !! "BookAuthor" = Some author →
       data !! "BookISBN" = Some isbn → data !! "BookPages" = Some pages →
       data !! "BookYear" = Some year →
       Forall (λ b, Bson.storable (VariantB.fields b)) coll →
       ¬ Bson.storable {[ "BookName" := name; "BookAuthor" := author;
                          "BookISBN" := isbn; "BookPages" := pages;
                          "BookYear" := year ]} →
       (Bson.encodable isbn = false →
        VariantB.create_book (Some coll) data new_id
        = (overflow_error, Some coll))
       ∧ (Bson.encodable isbn = true →
          Forall (λ b, VariantB.isbn_of b ≠ Some isbn) coll →
          VariantB.create_book (Some coll) data new_id
          = (Response 500
               {[ "error" := VStr "Failed to create book due to a database error." ]},
             Some coll)))
  ∧ (∀ (coll : list VariantB.stored) (book_id oid : string) (data : doc),
       ObjectId.parse book_id = Some oid →
       ¬ Bson.storable (VariantB.update_fields_of data) →
       VariantB.update_book (Some coll) book_id data
       = (Response 500
            {[ "error" := VStr "Failed to update book due to a database error." ]},
          Some coll))
  ∧ status_of overflow_error = 500.
Proof.
  split; [|split; [|split; [|split; [|done]]]].
  - intros collection data id title author Hid Htitle Hauthor Hstore Hsent.
    unfold VariantA.create_book, subscript.
    assert (first_missing VariantA.required_fields data = None) as ->.
    { apply first_missing_None. intros field Hin.
      unfold VariantA.required_fields in Hin.
      repeat (apply elem_of_cons in Hin as [->|Hin]; [by eauto|]).
      by apply elem_of_nil in Hin. }
    rewrite Hid, Htitle, Hauthor. cbn zeta.
    find_one_cases d Hin Hd Hfind Hbook; [|done|done].
    destruct Hsent. apply (matches_storable _ d Hd).
    rewrite Forall_forall in Hstore. by apply Hstore.
  - intros collection book_id data title author Htitle Hauthor Hstore Hsent.
    assert (¬ Bson.storable (VariantA.book_of (VStr book_id) title author data))
      as Hquery.
    { intros Hbook. apply Hsent.
      by apply (storable_update_fields_of_book data (VStr book_id) title author). }
    unfold VariantA.update_book, subscript.
    rewrite decide_False by (intros ->; by rewrite lookup_empty in Htitle).
    rewrite decide_False.
    2:{ apply (collect_fields_nonempty _ _ _ "title" "BookName");
          [apply allowed_fields_NoDup | by_computation | done | by eauto]. }
    rewrite Htitle, Hauthor. cbn zeta.
    find_one_cases d Hin Hd Hfind Hbook; [|done|done].
    destruct Hquery. apply (matches_storable _ d Hd).
    rewrite Forall_forall in Hstore. by apply Hstore.
  - intros coll data new_id name author isbn pages year
      Hname Hauthor Hisbn Hpages Hyear Hstore Hsent.
    assert (first_missing VariantB.required_fields data = None) as Hreq.
    { apply first_missing_None. intros field Hin.
      unfold VariantB.required_fields in Hin.
      repeat (apply elem_of_cons in Hin as [->|Hin]; [by eauto|]).
      by apply elem_of_nil in Hin. }
    split.
    + intros Hbig. unfold VariantB.create_book, subscript.
      rewrite decide_False by (intros ->; by rewrite lookup_empty in Hisbn).
      rewrite Hreq, Hisbn.
      find_one_cases d Hin Hd Hfind Hquery; [| |done].
      * rewrite Forall_forall in Hstore.
        by rewrite (Hstore d Hin "BookISBN" isbn Hd) in Hbig.
      * apply storable_singleton in Hquery. by rewrite Hquery in Hbig.
    + intros Hsmall Hnew. unfold VariantB.create_book, subscript.
      rewrite decide_False by (intros ->; by rewrite lookup_empty in Hisbn).
      rewrite Hreq, Hisbn.
      rewrite encoded_find_one_miss; [|done|by apply storable_singleton].
      rewrite Hname, Hauthor, Hpages, Hyear. cbn zeta.
      unfold encoded_insert_one. by rewrite decide_False by done.
  - intros coll book_id oid data Hparse Hsent. unfold VariantB.update_book.
    assert (Bson.storable ∅) as Hnothing
      by (intros k v Hk; by rewrite lookup_empty in Hk).
    rewrite decide_False.
    2:{ intros ->. by apply Hsent. }
    rewrite Hparse. rewrite decide_False.
    2:{ intros Hempty. apply Hsent. by rewrite Hempty. }
    unfold encoded_update_one. by rewrite decide_False by done.
Qed.

Lemma out_of_range_integer_answers_500_witness :
  VariantA.create_book VariantA.start_data
    {[ "id" := VStr "example4"; "title" := VStr "Dracula";
       "author" := VStr "Bram Stoker"; "pages" := VInt 9223372036854775808 ]}
  = (overflow_error, VariantA.start_data)
  ∧ VariantA.update_book VariantA.start_data "example1"
      {[ "title" := VStr "The Vortex"; "author" := VStr "José Eustasio Rivera";
         "year" := VInt 9223372036854775808 ]}
    = (overflow_error, VariantA.start_data)
  ∧ VariantB.create_book (Some VariantB.seeded)
      (<[ "BookISBN" := VInt 9223372036854775808 ]> Samples.dracula)
      "65f0c0ffee65f0c0ffee0004"
    = (overflow_error, Some VariantB.seeded)
  ∧ VariantB.create_book (Some VariantB.seeded)
      (<[ "BookYear" := VInt 9223372036854775808 ]> Samples.dracula)
      "65f0c0ffee65f0c0ffee0004"
    = (Response 500
         {[ "error" := VStr "Failed to create book due to a database error." ]},
       Some VariantB.seeded)
  ∧ VariantB.update_book (Some VariantB.seeded) "65f0c0ffee65f0c0ffee0002"
      {[ "BookPages" := VInt (-9223372036854775809) ]}
    = (Response 500
         {[ "error" := VStr "Failed to update book due to a database error." ]},
       Some VariantB.seeded).
Proof.
  split; [|split; [|split; [|split]]].
  - refine (proj1 out_of_range_integer_answers_500 VariantA.start_data _
              (VStr "example4") (VStr "Dracula") (VStr "Bram Stoker") _ _ _ _ _);
      [reflexivity | reflexivity | reflexivity | by_computation | by_computation].
  - refine (proj1 (proj2 out_of_range_integer_answers_500) VariantA.start_data
              "example1" _ (VStr "The Vortex") (VStr "José Eustasio Rivera")
              _ _ _ _);
      [reflexivity | reflexivity | by_computation | by_computation].
  - refine (proj1 (proj1 (proj2 (proj2 out_of_range_integer_answers_500))
                     VariantB.seeded _ "65f0c0ffee65f0c0ffee0004"
                     (VStr "Dracula") (VStr "Bram Stoker")
                     (VInt 9223372036854775808) (VInt 418) (VInt 1897)
                     _ _ _ _ _ _ _) _);
      [reflexivity | reflexivity | reflexivity | reflexivity | reflexivity
      | by_computation | by_computation | reflexivity].
  - refine (proj2 (proj1 (proj2 (proj2 out_of_range_integer_answers_500))
                     VariantB.seeded _ "65f0c0ffee65f0c0ffee0004"
                     (VStr "Dracula") (VStr "Bram Stoker")
                     (VStr "978-0-14-143984-6") (VInt 418)
                     (VInt 9223372036854775808)
                     _ _ _ _ _ _ _) _ _);
      [reflexivity | reflexivity | reflexivity | reflexivity | reflexivity
      | by_computation | by_computation | reflexivity | by_computation].
  - refine (proj1 (proj2 (proj2 (proj2 out_of_range_integer_answers_500)))
              VariantB.seeded "65f0c0ffee65f0c0ffee0002"
              "65f0c0ffee65f0c0ffee0002" _ _ _);
      [reflexivity | by_computation].
Defined.

(** ** The documents of a collection have passed the encoder *)




(** ** The answers a handler can give *)

